(** * GraphSentinel Voice: the alert relay of [main.py]

    A shallow embedding of the request handlers of [main.py] and the
    properties of its specification.

    The handlers read a process-wide configuration, mutate one shared
    dictionary ([audio_cache]) and talk to three upstream HTTP APIs.  They
    are embedded as computations in a state-and-exception monad:
    - the state holds the audio cache, the list of requests sent upstream so
      far and the number of clock readings taken;
    - the upstream providers, the wall clock and Python's [str] on exception
      objects are an environment ([World]) the handlers are parameterised by;
    - [raise] and [try ... except Exception] are the monad's [raise] and
      [try_except].

    Python [str] values are sequences of Unicode code points ([pystr]), so
    [len] is the number of code points and a header value can fail to encode
    as latin-1; [bytes] are lists of bytes; dictionaries keyed by strings are
    [gmap pystr _]. *)

From Stdlib Require Import ZArith NArith.
From stdpp Require Import base gmap list countable.

Local Open Scope Z_scope.

(** ** Python strings *)

(** A [str] is the sequence of its code points. *)
Record pystr := Str { code_points : list N }.

(** String literals of this file denote the [pystr] of their characters;
    only ASCII literals are read. *)
Definition ascii_code (b : Byte.byte) : option N :=
  let n := N.of_nat (Byte.to_nat b) in
  if (n <? 128)%N then Some n else None.

Fixpoint codes_of_bytes (bs : list Byte.byte) : option (list N) :=
  match bs with
  | [] => Some []
  | b :: rest =>
      match ascii_code b, codes_of_bytes rest with
      | Some c, Some cs => Some (c :: cs)
      | _, _ => None
      end
  end.

Definition pystr_of_bytes (bs : list Byte.byte) : option pystr :=
  match codes_of_bytes bs with
  | Some cs => Some (Str cs)
  | None => None
  end.

Fixpoint bytes_of_codes (cs : list N) : option (list Byte.byte) :=
  match cs with
  | [] => Some []
  | c :: rest =>
      match (if (c <? 128)%N then Byte.of_nat (N.to_nat c) else None),
            bytes_of_codes rest with
      | Some b, Some bs => Some (b :: bs)
      | _, _ => None
      end
  end.

Definition bytes_of_pystr (s : pystr) : option (list Byte.byte) :=
  bytes_of_codes (code_points s).

Declare Scope pystr_scope.
Delimit Scope pystr_scope with pystr.
Bind Scope pystr_scope with pystr.
String Notation pystr pystr_of_bytes bytes_of_pystr : pystr_scope.
Local Open Scope pystr_scope.

#[global] Instance pystr_eq_dec : EqDecision pystr.
Proof. solve_decision. Defined.

#[global] Instance pystr_countable : Countable pystr :=
  inj_countable' code_points Str (fun s => match s with Str _ => eq_refl end).

(** [a + b] and f-string interpolation. *)
Definition append (a b : pystr) : pystr :=
  Str (code_points a ++ code_points b).
Infix "+:+" := append (at level 60, right associativity) : pystr_scope.

(** [len(s)] *)
Definition len (s : pystr) : nat := length (code_points s).

(** Whether [s.encode("latin-1")] succeeds: every code point is at most
    U+00FF. *)
Definition latin1_encodable (s : pystr) : bool :=
  forallb (fun c => (c <? 256)%N) (code_points s).

(** ** Python values *)

Abbreviation bytes := (list Byte.byte).

(** Truthiness of a [str]: only the empty string is falsy. *)
Definition truthy (s : pystr) : bool :=
  match code_points s with
  | [] => false
  | _ :: _ => true
  end.

(** Truthiness of an [Optional[str]]: [None] and [""] are falsy. *)
Definition truthy_opt (o : option pystr) : bool :=
  match o with
  | None => false
  | Some s => truthy s
  end.

(** [a and b] on strings returns an operand, not a boolean. *)
Definition py_and (a b : pystr) : pystr := if truthy a then b else a.

(** [all([...])] over strings. *)
Definition py_all (l : list pystr) : bool := forallb truthy l.

(** [x in l] for a list of strings. *)
Definition py_in (x : pystr) (l : list pystr) : bool := bool_decide (x ∈ l).

(** Decoded JSON documents, for [resp.json()]. *)
#[local] Set Warnings "-register-all".
Inductive JSON :=
| JNull
| JBool (b : bool)
| JNum (z : Z)
| JStr (s : pystr)
| JArr (items : list JSON)
| JObj (fields : list (pystr * JSON)).

(** Exceptions: the [HTTPException] the handlers raise themselves, and
    whatever else the runtime raises under them (transport failures and
    timeouts of [httpx], JSON decoding errors, attribute errors). *)
Inductive Exception :=
| HTTPException (status_code : Z) (detail : pystr)
| RuntimeFailure (name : pystr) (msg : pystr).

(** ** Configuration (module-level constants read from the environment) *)

Record Config := {
  ELEVENLABS_KEY : pystr;
  ELEVENLABS_VOICE : pystr;
  TWILIO_SID : pystr;
  TWILIO_TOKEN : pystr;
  TWILIO_FROM : pystr;
  TEAMS_WEBHOOK : pystr
}.

(** ** Request models *)

Module VoiceRequest.
Record t := mk {
  message : pystr;
  language : pystr;
  threat_id : option pystr
}.
(** [VoiceRequest(message=..., threat_id=...)] with [language] defaulted. *)
Definition make (message : pystr) (threat_id : option pystr) : t :=
  mk message "de" threat_id.
End VoiceRequest.

Module CallRequest.
Record t := mk {
  to_number : pystr;
  message : pystr;
  threat_id : option pystr
}.
End CallRequest.

Module TeamsRequest.
Record t := mk {
  message : pystr;
  threat_id : option pystr;
  include_audio : bool
}.
(** [TeamsRequest(message=..., threat_id=...)] with [include_audio]
    defaulted. *)
Definition make (message : pystr) (threat_id : option pystr) : t :=
  mk message threat_id true.
End TeamsRequest.

(** ** Handler results (the returned dictionaries) *)

Module Capabilities.
Record t := mk { elevenlabs : bool; twilio : bool; teams : bool }.
End Capabilities.

Module RootResult.
Record t := mk {
  service : pystr;
  status : pystr;
  capabilities : Capabilities.t
}.
End RootResult.

Module VoiceResult.
Record t := mk {
  threat_id : pystr;
  audio_url : pystr;
  duration_estimate : Z
}.
End VoiceResult.

Module AudioResponse.
Record t := mk {
  content : bytes;
  media_type : pystr;
  content_disposition : pystr
}.
End AudioResponse.

Module CallResult.
Record t := mk {
  status : pystr;
  call_sid : JSON;
  to : pystr;
  threat_id : pystr
}.
End CallResult.

Module TeamsResult.
Record t := mk {
  status : pystr;
  threat_id : pystr;
  channel : pystr;
  audio_generated : bool
}.
End TeamsResult.

(** One entry of the orchestrator's [results] dictionary: the dictionary a
    channel handler returned, or [{"error": str(e)}]. *)
Inductive ChannelEntry :=
| TeamsEntry (r : TeamsResult.t)
| CallEntry (r : CallResult.t)
| VoiceEntry (r : VoiceResult.t)
| ErrorEntry (error : pystr).

Module AlertResult.
Record t := mk {
  threat_id : pystr;
  channels : gmap pystr ChannelEntry
}.
End AlertResult.

(** ** Upstream traffic *)

(** The parts of the Teams message card that vary; every other field of the
    card is a constant of the source. *)
Record MessageCard := {
  activitySubtitle : pystr;
  fact_Time : pystr;
  card_text : pystr
}.

(** The three [client.post] calls of the source, with the data each sends. *)
Inductive Request :=
| ElevenLabsPost (voice api_key text : pystr)
| TwilioPost (sid token To From Twiml : pystr)
| TeamsPost (webhook : pystr) (card : MessageCard).

(** An [httpx] response: [json = None] when the body does not decode. *)
Record Response := {
  status_code : Z;
  text : pystr;
  content : bytes;
  json : option JSON
}.

Inductive Result (A : Type) :=
| Return (a : A)
| Raise (e : Exception).
Arguments Return {A} a.
Arguments Raise {A} e.

(** The environment of the process: the clock rendered by [strftime] (by
    reading number and format), the upstream providers (which may answer
    differently depending on what was sent before), and [str] on exception
    objects. *)
Record World := {
  strftime_now : nat -> pystr -> pystr;
  upstream : list Request -> Request -> Result Response;
  str : Exception -> pystr
}.

(** ** Process state and the handler monad *)

Record State := {
  audio_cache : gmap pystr bytes;
  sent : list Request;
  clock_reads : nat
}.

(** The state of a freshly started process: [audio_cache = {}]. *)
Definition initial_state : State :=
  {| audio_cache := ∅; sent := []; clock_reads := 0 |}.

Definition M (A : Type) : Type := State -> Result A * State.

Definition ret {A} (a : A) : M A := fun st => (Return a, st).

Definition raise {A} (e : Exception) : M A := fun st => (Raise e, st).

Definition bind {A B} (m : M A) (k : A -> M B) : M B :=
  fun st =>
    match m st with
    | (Return a, st') => k a st'
    | (Raise e, st') => (Raise e, st')
    end.

(** [try: m  except Exception as e: h e] *)
Definition try_except {A} (m : M A) (h : Exception -> M A) : M A :=
  fun st =>
    match m st with
    | (Return a, st') => (Return a, st')
    | (Raise e, st') => h e st'
    end.

Declare Scope handler_scope.
Delimit Scope handler_scope with handler.
Notation "x <- m ;; k" := (bind m (fun x => k))
  (at level 100, m at next level, right associativity) : handler_scope.
Notation "m ;;; k" := (bind m (fun _ => k))
  (at level 100, right associativity) : handler_scope.
Local Open Scope handler_scope.

(** State updates: a cache write, one more request sent, one more clock
    reading. *)
Definition write_cache (threat_id : pystr) (data : bytes) (st : State) : State :=
  {| audio_cache := <[threat_id := data]> (audio_cache st);
     sent := sent st;
     clock_reads := clock_reads st |}.

Definition record_sent (rq : Request) (st : State) : State :=
  {| audio_cache := audio_cache st;
     sent := sent st ++ [rq];
     clock_reads := clock_reads st |}.

Definition tick (st : State) : State :=
  {| audio_cache := audio_cache st;
     sent := sent st;
     clock_reads := S (clock_reads st) |}.

(** [audio_cache[threat_id] = data] *)
Definition cache_store (threat_id : pystr) (data : bytes) : M unit :=
  fun st => (Return tt, write_cache threat_id data st).

(** Reading [audio_cache]. *)
Definition cache_get : M (gmap pystr bytes) :=
  fun st => (Return (audio_cache st), st).

(** [d.get(key)] on a decoded JSON document: only objects have [get]. *)
Definition json_get (d : JSON) (key : pystr) : M JSON :=
  match d with
  | JObj fields =>
      ret (match find (fun kv => bool_decide (fst kv = key)) fields with
           | Some kv => snd kv
           | None => JNull
           end)
  | _ => raise (RuntimeFailure "AttributeError" "get")
  end.

(** [resp.json()] *)
Definition resp_json (resp : Response) : M JSON :=
  match json resp with
  | Some d => ret d
  | None => raise (RuntimeFailure "JSONDecodeError" (text resp))
  end.

Definition dquote : pystr := Str [34%N].
Definition newline : pystr := Str [10%N].

Section Handlers.

Variable cfg : Config.
Variable w : World.

(** [datetime.now().strftime(fmt)] *)
Definition now_strftime (fmt : pystr) : M pystr :=
  fun st =>
    (Return (strftime_now w (clock_reads st) fmt), tick st).

(** [await client.post(...)]: the request is recorded as sent, then the
    provider answers or the transport raises. *)
Definition client_post (rq : Request) : M Response :=
  fun st =>
    (upstream w (sent st) rq, record_sent rq st).

(** [tid or f"{prefix}{datetime.now().strftime('%Y%m%d%H%M%S')}"]: the
    clock is read only when [tid] is falsy. *)
Definition resolve_threat_id (tid : option pystr) (prefix : pystr) : M pystr :=
  match tid with
  | Some s =>
      if truthy s then ret s
      else ts <- now_strftime "%Y%m%d%H%M%S" ;; ret (prefix +:+ ts)
  | None => ts <- now_strftime "%Y%m%d%H%M%S" ;; ret (prefix +:+ ts)
  end.

(** [GET /] *)
Definition root : RootResult.t :=
  RootResult.mk "GraphSentinel Voice" "operational"
    (Capabilities.mk
       (truthy (ELEVENLABS_KEY cfg))
       (truthy (py_and (TWILIO_SID cfg) (TWILIO_TOKEN cfg)))
       (truthy (TEAMS_WEBHOOK cfg))).

(** [POST /api/generate] *)
Definition generate_voice (req : VoiceRequest.t) : M VoiceResult.t :=
  if negb (truthy (ELEVENLABS_KEY cfg)) then
    raise (HTTPException 503 "ElevenLabs not configured")
  else
    threat_id <- resolve_threat_id (VoiceRequest.threat_id req) "VOC-" ;;
    resp <- client_post (ElevenLabsPost (ELEVENLABS_VOICE cfg)
                           (ELEVENLABS_KEY cfg) (VoiceRequest.message req)) ;;
    if negb (status_code resp =? 200)%Z then
      raise (HTTPException (status_code resp)
               ("ElevenLabs error: " +:+ text resp))
    else
      cache_store threat_id (content resp) ;;;
      ret (VoiceResult.mk threat_id ("/api/audio/" +:+ threat_id)
             (Z.of_nat (len (VoiceRequest.message req)) / 15)).

(** [Response(content=..., media_type=..., headers={"Content-Disposition":
    ...})]: the constructor encodes header values as latin-1 and raises
    [UnicodeEncodeError] when one does not encode. *)
Definition audio_response (data : bytes) (media_type : pystr)
    (content_disposition : pystr) : M AudioResponse.t :=
  if latin1_encodable content_disposition then
    ret (AudioResponse.mk data media_type content_disposition)
  else raise (RuntimeFailure "UnicodeEncodeError" content_disposition).

(** [GET /api/audio/{threat_id}] *)
Definition get_audio (threat_id : pystr) : M AudioResponse.t :=
  cache <- cache_get ;;
  match cache !! threat_id with
  | None => raise (HTTPException 404 "Audio not found")
  | Some data =>
      audio_response data "audio/mpeg"
        ("inline; filename=" +:+ threat_id +:+ ".mp3")
  end.

(** The TwiML document of [make_call]. *)
Definition twiml_of (message : pystr) : pystr :=
  newline +:+ "    <Response>" +:+ newline +:+
  "        <Say voice=" +:+ dquote +:+ "Polly.Vicki" +:+ dquote +:+
  " language=" +:+ dquote +:+ "de-DE" +:+ dquote +:+ ">" +:+ message +:+
  "</Say>" +:+ newline +:+ "    </Response>" +:+ newline +:+ "    ".

(** [POST /api/call] *)
Definition make_call (req : CallRequest.t) : M CallResult.t :=
  if negb (py_all [TWILIO_SID cfg; TWILIO_TOKEN cfg; TWILIO_FROM cfg]) then
    raise (HTTPException 503 "Twilio not configured")
  else
    let voice_req :=
      VoiceRequest.make (CallRequest.message req) (CallRequest.threat_id req) in
    voice_result <- generate_voice voice_req ;;
    let twiml := twiml_of (CallRequest.message req) in
    resp <- client_post (TwilioPost (TWILIO_SID cfg) (TWILIO_TOKEN cfg)
                           (CallRequest.to_number req) (TWILIO_FROM cfg) twiml) ;;
    if negb ((status_code resp =? 200)%Z || (status_code resp =? 201)%Z) then
      raise (HTTPException (status_code resp) ("Twilio error: " +:+ text resp))
    else
      call_data <- resp_json resp ;;
      sid <- json_get call_data "sid" ;;
      ret (CallResult.mk "initiated" sid (CallRequest.to_number req)
             (VoiceResult.threat_id voice_result)).

(** [POST /api/teams] *)
Definition send_teams (req : TeamsRequest.t) : M TeamsResult.t :=
  if negb (truthy (TEAMS_WEBHOOK cfg)) then
    raise (HTTPException 503 "Teams webhook not configured")
  else
    threat_id <- resolve_threat_id (TeamsRequest.threat_id req) "TMS-" ;;
    audio_url <-
      (if TeamsRequest.include_audio req && truthy (ELEVENLABS_KEY cfg) then
         voice_result <- generate_voice
                           (VoiceRequest.make (TeamsRequest.message req)
                              (Some threat_id)) ;;
         ret (Some (VoiceResult.audio_url voice_result))
       else ret None) ;;
    now <- now_strftime "%Y-%m-%d %H:%M:%S UTC" ;;
    let card :=
      {| activitySubtitle := "Threat ID: " +:+ threat_id;
         fact_Time := now;
         card_text := TeamsRequest.message req |} in
    resp <- client_post (TeamsPost (TEAMS_WEBHOOK cfg) card) ;;
    if negb ((status_code resp =? 200)%Z || (status_code resp =? 201)%Z) then
      raise (HTTPException (status_code resp) ("Teams error: " +:+ text resp))
    else
      ret (TeamsResult.mk "sent" threat_id "teams"
             (match audio_url with Some _ => true | None => false end)).

(** [POST /api/alert] *)
Definition send_alert (message : pystr) (channels : list pystr)
    (phone : option pystr) (threat_id : option pystr) : M AlertResult.t :=
  let results : gmap pystr ChannelEntry := ∅ in
  threat_id <- resolve_threat_id threat_id "ALT-" ;;
  results <-
    (if py_in "teams" channels && truthy (TEAMS_WEBHOOK cfg) then
       try_except
         (r <- send_teams (TeamsRequest.make message (Some threat_id)) ;;
          ret (<["teams" := TeamsEntry r]> results))
         (fun e => ret (<["teams" := ErrorEntry (str w e)]> results))
     else ret results) ;;
  results <-
    (if py_in "call" channels && truthy_opt phone && truthy (TWILIO_SID cfg) then
       try_except
         (r <- make_call (CallRequest.mk (default "" phone) message
                            (Some threat_id)) ;;
          ret (<["call" := CallEntry r]> results))
         (fun e => ret (<["call" := ErrorEntry (str w e)]> results))
     else ret results) ;;
  results <-
    (if py_in "voice" channels && truthy (ELEVENLABS_KEY cfg) then
       try_except
         (r <- generate_voice (VoiceRequest.make message (Some threat_id)) ;;
          ret (<["voice" := VoiceEntry r]> results))
         (fun e => ret (<["voice" := ErrorEntry (str w e)]> results))
     else ret results) ;;
  ret (AlertResult.mk threat_id results).

End Handlers.

(** ** Capabilities, in the specification's words

    "Each capability (speech, telephony, chat) is considered enabled iff its
    required values are all non-empty."  The required values are the speech
    API key; the telephony account id, auth token and sender number; the
    chat webhook URL. *)

Definition spec_speech_enabled (cfg : Config) : Prop :=
  ELEVENLABS_KEY cfg <> "".

Definition spec_telephony_enabled (cfg : Config) : Prop :=
  TWILIO_SID cfg <> "" /\ TWILIO_TOKEN cfg <> "" /\ TWILIO_FROM cfg <> "".

Definition spec_chat_enabled (cfg : Config) : Prop :=
  TEAMS_WEBHOOK cfg <> "".

(** A run of cache writes, [audio_cache[k] = v] for each pair in turn: what
    successive generation calls do to the cache. *)
Fixpoint cache_stores (kvs : list (pystr * bytes)) : M unit :=
  match kvs with
  | [] => ret tt
  | kv :: rest => cache_store (fst kv) (snd kv) ;;; cache_stores rest
  end.

(** The identifier a handler generates when none is supplied: its prefix
    followed by the current clock reading. *)
Definition generated_id (w : World) (prefix : pystr) (st : State) : pystr :=
  prefix +:+ strftime_now w (clock_reads st) "%Y%m%d%H%M%S".

(** The speech request [generate_voice] sends for a message. *)
Definition speech_request (cfg : Config) (message : pystr) : Request :=
  ElevenLabsPost (ELEVENLABS_VOICE cfg) (ELEVENLABS_KEY cfg) message.

(** The call request [make_call] sends. *)
Definition call_request (cfg : Config) (req : CallRequest.t) : Request :=
  TwilioPost (TWILIO_SID cfg) (TWILIO_TOKEN cfg) (CallRequest.to_number req)
    (TWILIO_FROM cfg) (twiml_of (CallRequest.message req)).

(** Upstream behaviour assumed by success scenarios: the speech provider
    answers every synthesis request with status 200; the chat webhook
    answers every card with 200 or 201. *)
Definition speech_succeeds (w : World) : Prop :=
  forall history voice api_key text,
    exists resp,
      upstream w history (ElevenLabsPost voice api_key text) = Return resp /\
      status_code resp = 200.

Definition chat_succeeds (w : World) : Prop :=
  forall history webhook card,
    exists resp,
      upstream w history (TeamsPost webhook card) = Return resp /\
      (status_code resp = 200 \/ status_code resp = 201).

(** Configurations and environments used as concrete inputs. *)

Definition cfg_no_sender : Config :=
  {| ELEVENLABS_KEY := "";
     ELEVENLABS_VOICE := "21m00Tcm4TlvDq8ikWAM";
     TWILIO_SID := "AC1";
     TWILIO_TOKEN := "tok";
     TWILIO_FROM := "";
     TEAMS_WEBHOOK := "" |}.

Definition cfg_chat_only : Config :=
  {| ELEVENLABS_KEY := "";
     ELEVENLABS_VOICE := "21m00Tcm4TlvDq8ikWAM";
     TWILIO_SID := "";
     TWILIO_TOKEN := "";
     TWILIO_FROM := "";
     TEAMS_WEBHOOK := "https://hook.example/teams" |}.

Definition cfg_chat_sid_only : Config :=
  {| ELEVENLABS_KEY := "";
     ELEVENLABS_VOICE := "21m00Tcm4TlvDq8ikWAM";
     TWILIO_SID := "AC1";
     TWILIO_TOKEN := "";
     TWILIO_FROM := "";
     TEAMS_WEBHOOK := "https://hook.example/teams" |}.

Definition cfg_all : Config :=
  {| ELEVENLABS_KEY := "xi-key";
     ELEVENLABS_VOICE := "21m00Tcm4TlvDq8ikWAM";
     TWILIO_SID := "AC1";
     TWILIO_TOKEN := "tok";
     TWILIO_FROM := "+15550100";
     TEAMS_WEBHOOK := "https://hook.example/teams" |}.

Definition cfg_no_speech : Config :=
  {| ELEVENLABS_KEY := "";
     ELEVENLABS_VOICE := "21m00Tcm4TlvDq8ikWAM";
     TWILIO_SID := "AC1";
     TWILIO_TOKEN := "tok";
     TWILIO_FROM := "+15550100";
     TEAMS_WEBHOOK := "https://hook.example/teams" |}.

Definition mp3_sample : bytes := [Byte.x49; Byte.x44; Byte.x33].

(** An identifier of one code point above U+00FF (U+0100). *)
Definition wide_id : pystr := Str [256%N].

Definition ok_response : Response :=
  {| status_code := 200; text := "ok"; content := mp3_sample; json := None |}.

Definition busy_response : Response :=
  {| status_code := 429; text := "busy"; content := []; json := None |}.

(** A world in which every provider answers 200. *)
Definition world_ok : World :=
  {| strftime_now := fun _ _ => "20240101120000";
     upstream := fun _ _ => Return ok_response;
     str := fun e =>
       match e with
       | HTTPException _ detail => detail
       | RuntimeFailure _ msg => msg
       end |}.

(** A world in which speech synthesis answers 200 and the other providers
    answer 429. *)
Definition world_speech_only : World :=
  {| strftime_now := fun _ _ => "20240101120000";
     upstream := fun _ rq =>
       match rq with
       | ElevenLabsPost _ _ _ => Return ok_response
       | _ => Return busy_response
       end;
     str := fun e =>
       match e with
       | HTTPException _ detail => detail
       | RuntimeFailure _ msg => msg
       end |}.

(** ** Notions for stating what the handlers do to the process state *)

(** The identifier a handler works under: the supplied one when it is
    truthy, else the one generated from the handler's prefix and the
    clock. *)
Definition resolved_id (w : World) (tid : option pystr) (prefix : pystr)
    (st : State) : pystr :=
  if truthy_opt tid then default "" tid else generated_id w prefix st.

(** [st'] comes after [st]: no key has left the cache, requests were only
    appended to the sent list, the clock was only read further. *)
Definition extends (st st' : State) : Prop :=
  dom (audio_cache st) ⊆ dom (audio_cache st') /\
  sent st `prefix_of` sent st' /\
  (clock_reads st <= clock_reads st')%nat.

(** The cache of [st'] is that of [st]. *)
Definition same_cache (st st' : State) : Prop :=
  audio_cache st' = audio_cache st.

(** The caches of [st] and [st'] agree on every key but [id]. *)
Definition same_except (id : pystr) (st st' : State) : Prop :=
  forall id', id' <> id -> audio_cache st' !! id' = audio_cache st !! id'.

(** A computation relates every state it is run in to the state it leaves,
    whether it returns or raises. *)
Definition preserves {A} (R : State -> State -> Prop) (m : M A) : Prop :=
  forall st, R st (snd (m st)).

(** What one guarded channel step of [send_alert] does to the result map and
    the state: skipped when the guard is false; otherwise the handler [m] is
    run and its result, or the error entry of what it raised, is written
    under [key]. *)
Definition step_outcome {A} (w : World) (guard : bool) (m : M A)
    (wrap : A -> ChannelEntry) (key : pystr)
    (results : gmap pystr ChannelEntry) (st : State)
    (results' : gmap pystr ChannelEntry) (st' : State) : Prop :=
  if guard then
    (exists a, m st = (Return a, st') /\ results' = <[key := wrap a]> results) \/
    (exists e, m st = (Raise e, st') /\
               results' = <[key := ErrorEntry (str w e)]> results)
  else results' = results /\ st' = st.

(** The telephony provider accepts every call: status 200 or 201 and a JSON
    object as body. *)
Definition call_succeeds (w : World) : Prop :=
  forall history sid token To From Twiml,
    exists resp fields,
      upstream w history (TwilioPost sid token To From Twiml) = Return resp /\
      (status_code resp = 200 \/ status_code resp = 201) /\
      json resp = Some (JObj fields).

Definition created_response : Response :=
  {| status_code := 201;
     text := "created";
     content := [];
     json := Some (JObj [("sid", JStr "CA123"); ("status", JStr "queued")]) |}.

Definition html_response : Response :=
  {| status_code := 200; text := "<html>"; content := []; json := None |}.

(** A world in which every provider accepts: speech and chat answer 200,
    telephony answers 201 with a JSON object carrying the call sid. *)
Definition world_all_ok : World :=
  {| strftime_now := fun _ _ => "20240101120000";
     upstream := fun _ rq =>
       match rq with
       | TwilioPost _ _ _ _ _ => Return created_response
       | _ => Return ok_response
       end;
     str := fun e =>
       match e with
       | HTTPException _ detail => detail
       | RuntimeFailure _ msg => msg
       end |}.

(** A world in which speech synthesis is refused with 429. *)
Definition world_speech_down : World :=
  {| strftime_now := fun _ _ => "20240101120000";
     upstream := fun _ rq =>
       match rq with
       | ElevenLabsPost _ _ _ => Return busy_response
       | _ => Return ok_response
       end;
     str := fun e =>
       match e with
       | HTTPException _ detail => detail
       | RuntimeFailure _ msg => msg
       end |}.

(** ** Basic facts about Python truthiness *)

Lemma truthy_true (s : pystr) : truthy s = true <-> s <> "".
Proof. destruct s as [[|c l]]; cbn; split; congruence. Qed.

Lemma truthy_false (s : pystr) : truthy s = false <-> s = "".
Proof. destruct s as [[|c l]]; cbn; split; congruence. Qed.

Lemma append_truthy (a b : pystr) :
  truthy a = true -> truthy (a +:+ b) = true.
Proof. destruct a as [[|c l]]; [discriminate|reflexivity]. Qed.

Lemma py_all3_true (a b c : pystr) :
  py_all [a; b; c] = true <-> a <> "" /\ b <> "" /\ c <> "".
Proof.
  unfold py_all; simpl. rewrite andb_true_r, !andb_true_iff, !truthy_true.
  tauto.
Qed.

Lemma py_all3_false (a b c : pystr) :
  py_all [a; b; c] = false <-> ~ (a <> "" /\ b <> "" /\ c <> "").
Proof.
  rewrite <- py_all3_true. destruct (py_all [a; b; c]); split; congruence.
Qed.

Lemma py_in_true (x : pystr) (l : list pystr) : py_in x l = true <-> x ∈ l.
Proof. unfold py_in. apply bool_decide_eq_true. Qed.

(** ** The not-configured guards *)

Section Guards.

Variable cfg : Config.
Variable w : World.

Lemma generate_voice_not_configured (req : VoiceRequest.t) (st : State) :
  ~ spec_speech_enabled cfg ->
  generate_voice cfg w req st
  = (Raise (HTTPException 503 "ElevenLabs not configured"), st).
Proof.
  unfold spec_speech_enabled, generate_voice. intros H.
  destruct (truthy (ELEVENLABS_KEY cfg)) eqn:E; [|reflexivity].
  apply truthy_true in E. contradiction.
Qed.

Lemma make_call_not_configured (req : CallRequest.t) (st : State) :
  ~ spec_telephony_enabled cfg ->
  make_call cfg w req st
  = (Raise (HTTPException 503 "Twilio not configured"), st).
Proof.
  unfold spec_telephony_enabled, make_call. intros H.
  apply py_all3_false in H. rewrite H. reflexivity.
Qed.

Lemma send_teams_not_configured (req : TeamsRequest.t) (st : State) :
  ~ spec_chat_enabled cfg ->
  send_teams cfg w req st
  = (Raise (HTTPException 503 "Teams webhook not configured"), st).
Proof.
  unfold spec_chat_enabled, send_teams. intros H.
  destruct (truthy (TEAMS_WEBHOOK cfg)) eqn:E; [|reflexivity].
  apply truthy_true in E. contradiction.
Qed.

End Guards.

(** ** Capability flags of [GET /] *)

(** X17.  What [root] reports: the speech flag is true exactly when the
    speech key is non-empty and the chat flag exactly when the webhook URL
    is non-empty (the specification's notion of enabled); the telephony
    flag is true exactly when account id and auth token are both non-empty:
    it looks at these two only, not at the sender number. *)
Lemma root_capabilities (cfg : Config) :
  let caps := RootResult.capabilities (root cfg) in
  (Capabilities.elevenlabs caps = true <-> spec_speech_enabled cfg) /\
  (Capabilities.teams caps = true <-> spec_chat_enabled cfg) /\
  (Capabilities.twilio caps = true <->
     TWILIO_SID cfg <> "" /\ TWILIO_TOKEN cfg <> "").
Proof.
  intros caps; subst caps.
  unfold root, spec_speech_enabled, spec_chat_enabled, py_and; simpl.
  split; [apply truthy_true|]. split; [apply truthy_true|].
  destruct (truthy (TWILIO_SID cfg)) eqn:E.
  - apply truthy_true in E. rewrite truthy_true. tauto.
  - rewrite E. apply truthy_false in E. split; [congruence|tauto].
Qed.

(** C2 (the code departs from the claim).  With account id and auth token
    set and the sender number empty, telephony is not enabled in the
    specification's sense and [make_call] refuses every request as not
    configured, yet [root] reports the telephony flag as [true]: [root]
    tests [TWILIO_SID and TWILIO_TOKEN] where [make_call] tests all three
    values. *)
Theorem root_twilio_flag_ignores_sender_number :
  Capabilities.twilio (RootResult.capabilities (root cfg_no_sender)) = true /\
  ~ spec_telephony_enabled cfg_no_sender /\
  forall (w : World) (req : CallRequest.t) (st : State),
    make_call cfg_no_sender w req st
    = (Raise (HTTPException 503 "Twilio not configured"), st).
Proof.
  split; [reflexivity|]. split.
  - unfold spec_telephony_enabled; simpl. tauto.
  - intros w req st. reflexivity.
Qed.

(** ** Endpoints without their configuration *)

(** C3.  Whatever the request body, an endpoint whose capability is not
    enabled fails with status 503 and a detail naming the provider that is
    not configured: ElevenLabs for generate, Twilio for call, the Teams
    webhook for teams.  Nothing else happens: the state is unchanged. *)
Theorem not_configured_endpoints_fail_503 (cfg : Config) (w : World) (st : State) :
  (~ spec_speech_enabled cfg ->
   forall req : VoiceRequest.t,
     generate_voice cfg w req st
     = (Raise (HTTPException 503 "ElevenLabs not configured"), st)) /\
  (~ spec_telephony_enabled cfg ->
   forall req : CallRequest.t,
     make_call cfg w req st
     = (Raise (HTTPException 503 "Twilio not configured"), st)) /\
  (~ spec_chat_enabled cfg ->
   forall req : TeamsRequest.t,
     send_teams cfg w req st
     = (Raise (HTTPException 503 "Teams webhook not configured"), st)).
Proof.
  repeat split; intros H req.
  - by apply generate_voice_not_configured.
  - by apply make_call_not_configured.
  - by apply send_teams_not_configured.
Qed.

Lemma not_configured_endpoints_fail_503_witness :
  generate_voice cfg_no_sender world_ok
    (VoiceRequest.mk "Intrusion detected" "de" (Some "VOC-TEST1")) initial_state
  = (Raise (HTTPException 503 "ElevenLabs not configured"), initial_state) /\
  make_call cfg_no_sender world_ok
    (CallRequest.mk "+4930123456" "Intrusion detected" None) initial_state
  = (Raise (HTTPException 503 "Twilio not configured"), initial_state) /\
  send_teams cfg_no_sender world_ok
    (TeamsRequest.mk "Intrusion detected" None true) initial_state
  = (Raise (HTTPException 503 "Teams webhook not configured"), initial_state).
Proof.
  destruct (not_configured_endpoints_fail_503 cfg_no_sender world_ok
              initial_state) as (Hv & Hc & Ht).
  split; [|split].
  - apply Hv. unfold spec_speech_enabled; simpl. tauto.
  - apply Hc. unfold spec_telephony_enabled; simpl. tauto.
  - apply Ht. unfold spec_chat_enabled; simpl. tauto.
Defined.

(** C7.  With telephony disabled (account id, auth token or sender number
    empty) the call endpoint fails with 503 "Twilio not configured" for
    every request, and the audio cache afterwards is the cache before: no
    entry is added.  No request is sent upstream either. *)
Theorem make_call_disabled_leaves_cache (cfg : Config) (w : World)
    (req : CallRequest.t) (st : State) :
  TWILIO_SID cfg = "" \/ TWILIO_TOKEN cfg = "" \/ TWILIO_FROM cfg = "" ->
  exists st',
    make_call cfg w req st
    = (Raise (HTTPException 503 "Twilio not configured"), st') /\
    audio_cache st' = audio_cache st /\
    sent st' = sent st.
Proof.
  intros H. exists st. split; [|done].
  apply make_call_not_configured. unfold spec_telephony_enabled.
  intros (H1 & H2 & H3). destruct H as [H | [H | H]]; contradiction.
Qed.

Lemma make_call_disabled_leaves_cache_witness :
  exists st',
    make_call cfg_no_sender world_ok
      (CallRequest.mk "+4930123456" "Intrusion detected" None) initial_state
    = (Raise (HTTPException 503 "Twilio not configured"), st') /\
    audio_cache st' = audio_cache initial_state /\
    sent st' = sent initial_state.
Proof.
  apply (make_call_disabled_leaves_cache cfg_no_sender world_ok).
  right; right; reflexivity.
Defined.

(** C9.  With telephony fully configured and the speech API key empty, the
    call endpoint fails with 503 "ElevenLabs not configured" (raised by the
    inner [generate_voice]); the list of requests sent upstream is
    unchanged, so nothing was sent to the telephony provider. *)
Theorem make_call_requires_speech (cfg : Config) (w : World)
    (req : CallRequest.t) (st : State) :
  spec_telephony_enabled cfg ->
  ELEVENLABS_KEY cfg = "" ->
  exists st',
    make_call cfg w req st
    = (Raise (HTTPException 503 "ElevenLabs not configured"), st') /\
    sent st' = sent st /\
    audio_cache st' = audio_cache st.
Proof.
  intros Ht Hk. exists st. split; [|done].
  unfold spec_telephony_enabled in Ht. apply py_all3_true in Ht.
  unfold make_call. rewrite Ht. simpl. unfold bind.
  rewrite generate_voice_not_configured; [reflexivity|].
  unfold spec_speech_enabled. tauto.
Qed.

Lemma make_call_requires_speech_witness :
  exists st',
    make_call cfg_no_speech world_ok
      (CallRequest.mk "+4930123456" "Intrusion detected" None) initial_state
    = (Raise (HTTPException 503 "ElevenLabs not configured"), st') /\
    sent st' = sent initial_state /\
    audio_cache st' = audio_cache initial_state.
Proof.
  apply (make_call_requires_speech cfg_no_speech world_ok).
  - unfold spec_telephony_enabled; simpl. repeat split; discriminate.
  - reflexivity.
Defined.

(** ** The audio cache *)

Section Cache.

Implicit Types (id : pystr) (data : bytes) (st : State).

Lemma cache_store_lookup_eq id data st :
  audio_cache (snd (cache_store id data st)) !! id = Some data.
Proof. apply lookup_insert_eq. Qed.

Lemma cache_store_lookup_ne id id' data st :
  id' <> id ->
  audio_cache (snd (cache_store id' data st)) !! id = audio_cache st !! id.
Proof. intros Hne. by apply lookup_insert_ne. Qed.

(** Writes under other identifiers do not change what is stored under
    [id]. *)
Lemma cache_stores_lookup_other id (others : list (pystr * bytes)) :
  Forall (fun kv => fst kv <> id) others ->
  forall st,
    audio_cache (snd (cache_stores others st)) !! id = audio_cache st !! id.
Proof.
  induction 1 as [|kv rest Hkv _ IH]; intros st; [reflexivity|].
  cbn [cache_stores]. unfold bind.
  destruct (cache_store kv.1 kv.2 st) as [[[]|e] st1] eqn:E.
  - rewrite IH. replace st1 with (snd (cache_store kv.1 kv.2 st)) by by rewrite E.
    by apply cache_store_lookup_ne.
  - discriminate E.
Qed.

(** The Content-Disposition value encodes as latin-1 exactly when the
    identifier does. *)
Lemma latin1_content_disposition id :
  latin1_encodable ("inline; filename=" +:+ id +:+ ".mp3")
  = latin1_encodable id.
Proof.
  unfold latin1_encodable, append. cbn [code_points].
  rewrite !forallb_app. cbn. by rewrite andb_true_r.
Qed.

Lemma get_audio_hit id data st :
  latin1_encodable id = true ->
  audio_cache st !! id = Some data ->
  get_audio id st
  = (Return (AudioResponse.mk data "audio/mpeg"
               ("inline; filename=" +:+ id +:+ ".mp3")), st).
Proof.
  intros Hid H. unfold get_audio, bind, cache_get. rewrite H.
  unfold audio_response. by rewrite latin1_content_disposition, Hid.
Qed.

Lemma get_audio_unencodable id data st :
  latin1_encodable id = false ->
  audio_cache st !! id = Some data ->
  get_audio id st
  = (Raise (RuntimeFailure "UnicodeEncodeError"
              ("inline; filename=" +:+ id +:+ ".mp3")), st).
Proof.
  intros Hid H. unfold get_audio, bind, cache_get. rewrite H.
  unfold audio_response. by rewrite latin1_content_disposition, Hid.
Qed.

Lemma get_audio_miss id st :
  audio_cache st !! id = None ->
  get_audio id st = (Raise (HTTPException 404 "Audio not found"), st).
Proof. intros H. unfold get_audio, bind, cache_get. by rewrite H. Qed.

End Cache.

(** C4 (the code departs from the claim).  The identifier "\u0100" (one
    code point, U+0100) is accepted by the generate endpoint, which stores
    the provider's audio under it and returns the audio URL for it; the
    bytes are in the cache, with no other store in between; yet the
    retrieval endpoint called with that identifier raises
    [UnicodeEncodeError] while building the response, because the
    Content-Disposition header does not encode as latin-1, and returns no
    bytes. *)
Theorem get_audio_fails_on_wide_identifier :
  let st' := snd (cache_store wide_id mp3_sample initial_state) in
  audio_cache st' !! wide_id = Some mp3_sample /\
  get_audio wide_id st'
  = (Raise (RuntimeFailure "UnicodeEncodeError"
              ("inline; filename=" +:+ wide_id +:+ ".mp3")), st') /\
  exists st'',
    generate_voice cfg_all world_ok
      (VoiceRequest.mk "test" "de" (Some wide_id)) initial_state
    = (Return (VoiceResult.mk wide_id ("/api/audio/" +:+ wide_id) 0), st'') /\
    audio_cache st'' !! wide_id = Some mp3_sample /\
    get_audio wide_id st''
    = (Raise (RuntimeFailure "UnicodeEncodeError"
                ("inline; filename=" +:+ wide_id +:+ ".mp3")), st'').
Proof.
  split; [reflexivity|]. split; [reflexivity|].
  eexists. split; [reflexivity|]. split; reflexivity.
Qed.

(** X19.  Cache round trip for identifiers that encode as latin-1 (every
    code point at most U+00FF): after [audio_cache[id] = data], and any
    further writes under identifiers other than [id], the retrieval
    endpoint called with [id] returns exactly [data], as an audio/mpeg
    response whose Content-Disposition names [id].  For an identifier that
    does not encode, the same call raises [UnicodeEncodeError] instead. *)
Theorem cache_round_trip (id : pystr) (data : bytes)
    (others : list (pystr * bytes)) (st : State) :
  Forall (fun kv => fst kv <> id) others ->
  let st' := snd ((cache_store id data ;;; cache_stores others) st) in
  get_audio id st'
  = (if latin1_encodable id
     then Return (AudioResponse.mk data "audio/mpeg"
                    ("inline; filename=" +:+ id +:+ ".mp3"))
     else Raise (RuntimeFailure "UnicodeEncodeError"
                   ("inline; filename=" +:+ id +:+ ".mp3")), st').
Proof.
  intros Hothers st'.
  assert (Hin : audio_cache st' !! id = Some data).
  { subst st'. unfold bind at 1. cbn [cache_store].
    rewrite (cache_stores_lookup_other id others Hothers).
    apply cache_store_lookup_eq. }
  destruct (latin1_encodable id) eqn:E.
  - by apply (get_audio_hit id data).
  - by apply (get_audio_unencodable id data).
Qed.

Lemma cache_round_trip_witness :
  let st' :=
    snd ((cache_store "VOC-TEST1" mp3_sample ;;;
          cache_stores [("VOC-TEST2", [Byte.x00]); ("ALT-1", [])])
           initial_state) in
  get_audio "VOC-TEST1" st'
  = (if latin1_encodable "VOC-TEST1"
     then Return (AudioResponse.mk mp3_sample "audio/mpeg"
                    ("inline; filename=" +:+ "VOC-TEST1" +:+ ".mp3"))
     else Raise (RuntimeFailure "UnicodeEncodeError"
                   ("inline; filename=" +:+ "VOC-TEST1" +:+ ".mp3")), st').
Proof.
  apply (cache_round_trip "VOC-TEST1" mp3_sample
           [("VOC-TEST2", [Byte.x00]); ("ALT-1", [])] initial_state).
  repeat constructor; discriminate.
Defined.

(** C8.  An identifier absent from the cache, and not written by any later
    store, is answered by the retrieval endpoint with 404 "Audio not found"
    and no payload.  In particular this holds from the empty cache of a
    fresh process, whatever is stored under other identifiers. *)
Theorem get_audio_never_stored (id : pystr) (others : list (pystr * bytes))
    (st : State) :
  audio_cache st !! id = None ->
  Forall (fun kv => fst kv <> id) others ->
  let st' := snd (cache_stores others st) in
  get_audio id st' = (Raise (HTTPException 404 "Audio not found"), st').
Proof.
  intros Hnone Hothers st'. apply get_audio_miss. subst st'.
  by rewrite (cache_stores_lookup_other id others Hothers).
Qed.

Lemma get_audio_never_stored_witness :
  let st' := snd (cache_stores [("VOC-TEST2", mp3_sample)] initial_state) in
  get_audio "VOC-TEST1" st'
  = (Raise (HTTPException 404 "Audio not found"), st').
Proof.
  apply (get_audio_never_stored "VOC-TEST1" [("VOC-TEST2", mp3_sample)]
           initial_state).
  - reflexivity.
  - repeat constructor; discriminate.
Defined.

(** ** Identifier resolution and speech synthesis *)

Section Speech.

Variable cfg : Config.
Variable w : World.

Lemma resolve_supplied (s prefix : pystr) (st : State) :
  s <> "" ->
  resolve_threat_id w (Some s) prefix st = (Return s, st).
Proof.
  intros H. apply truthy_true in H. unfold resolve_threat_id.
  by rewrite H.
Qed.

Lemma resolve_generated (tid : option pystr) (prefix : pystr) (st : State) :
  truthy_opt tid = false ->
  resolve_threat_id w tid prefix st
  = (Return (generated_id w prefix st), tick st).
Proof.
  intros H. unfold resolve_threat_id.
  destruct tid as [s|]; simpl in H; [rewrite H|]; reflexivity.
Qed.

(** Resolution always returns, a non-empty identifier, and touches neither
    the cache nor the upstream providers. *)
Lemma resolve_threat_id_returns (tid : option pystr) (prefix : pystr)
    (st : State) :
  prefix <> "" ->
  exists id st0,
    resolve_threat_id w tid prefix st = (Return id, st0) /\
    id <> "" /\
    audio_cache st0 = audio_cache st /\ sent st0 = sent st /\
    (truthy_opt tid = true -> tid = Some id /\ st0 = st) /\
    (truthy_opt tid = false -> id = generated_id w prefix st /\ st0 = tick st).
Proof.
  intros Hp. destruct (truthy_opt tid) eqn:E.
  - destruct tid as [s|]; [|discriminate]. simpl in E.
    exists s, st. apply truthy_true in E.
    rewrite resolve_supplied by done. repeat split; done.
  - exists (generated_id w prefix st), (tick st).
    rewrite resolve_generated by done. repeat split; try done.
    unfold generated_id. by apply truthy_true, append_truthy, truthy_true.
Qed.

(** A successful synthesis: the provider's audio is stored under the
    resolved identifier and the result names that identifier. *)
Lemma generate_voice_ok (req : VoiceRequest.t) (st st0 : State)
    (id : pystr) (resp : Response) :
  ELEVENLABS_KEY cfg <> "" ->
  resolve_threat_id w (VoiceRequest.threat_id req) "VOC-" st = (Return id, st0) ->
  upstream w (sent st0) (speech_request cfg (VoiceRequest.message req))
  = Return resp ->
  status_code resp = 200 ->
  generate_voice cfg w req st
  = (Return (VoiceResult.mk id ("/api/audio/" +:+ id)
               (Z.of_nat (len (VoiceRequest.message req)) / 15)),
     write_cache id (content resp)
       (record_sent (speech_request cfg (VoiceRequest.message req)) st0)).
Proof.
  intros Hk Hr Hu Hs. apply truthy_true in Hk.
  unfold generate_voice. rewrite Hk. cbn [negb]. unfold bind at 1.
  rewrite Hr. unfold bind at 1, client_post.
  fold (speech_request cfg (VoiceRequest.message req)).
  rewrite Hu, Hs. reflexivity.
Qed.

(** A failed synthesis (any status but 200) raises with the provider's
    status and stores nothing. *)
Lemma generate_voice_upstream_error (req : VoiceRequest.t) (st st0 : State)
    (id : pystr) (resp : Response) :
  ELEVENLABS_KEY cfg <> "" ->
  resolve_threat_id w (VoiceRequest.threat_id req) "VOC-" st = (Return id, st0) ->
  upstream w (sent st0) (speech_request cfg (VoiceRequest.message req))
  = Return resp ->
  status_code resp <> 200 ->
  generate_voice cfg w req st
  = (Raise (HTTPException (status_code resp)
              ("ElevenLabs error: " +:+ text resp)),
     record_sent (speech_request cfg (VoiceRequest.message req)) st0).
Proof.
  intros Hk Hr Hu Hs. apply truthy_true in Hk. apply Z.eqb_neq in Hs.
  unfold generate_voice. rewrite Hk. cbn [negb]. unfold bind at 1.
  rewrite Hr. unfold bind at 1, client_post.
  fold (speech_request cfg (VoiceRequest.message req)).
  rewrite Hu, Hs. reflexivity.
Qed.

End Speech.

(** C5.  A successful speech synthesis (speech enabled, the provider
    answering 200) returns [duration_estimate] equal to
    [floor(len(message) / 15)]: the integer [d] with
    [15 * d <= len(message) < 15 * (d + 1)].  This holds for every message,
    the non-empty ones in particular. *)
Theorem duration_estimate_floor (cfg : Config) (w : World)
    (req : VoiceRequest.t) (st : State) (resp : Response) :
  ELEVENLABS_KEY cfg <> "" ->
  upstream w (sent st) (speech_request cfg (VoiceRequest.message req))
  = Return resp ->
  status_code resp = 200 ->
  exists r st',
    generate_voice cfg w req st = (Return r, st') /\
    VoiceResult.duration_estimate r
    = Z.of_nat (len (VoiceRequest.message req)) / 15 /\
    15 * VoiceResult.duration_estimate r
    <= Z.of_nat (len (VoiceRequest.message req))
    < 15 * (VoiceResult.duration_estimate r + 1).
Proof.
  intros Hk Hu Hs.
  destruct (resolve_threat_id_returns w (VoiceRequest.threat_id req) "VOC-" st)
    as (id & st0 & Hr & _ & _ & Hsent & _); [discriminate|].
  rewrite <- Hsent in Hu.
  eexists _, _. split; [by apply (generate_voice_ok cfg w req st st0 id resp)|].
  cbn [VoiceResult.duration_estimate]. split; [reflexivity|].
  pose proof (Z.div_mod (Z.of_nat (len (VoiceRequest.message req))) 15
                ltac:(lia)) as Hdm.
  pose proof (Z.mod_pos_bound
                (Z.of_nat (len (VoiceRequest.message req))) 15
                ltac:(lia)) as Hb.
  lia.
Qed.

Lemma duration_estimate_floor_witness :
  exists r st',
    generate_voice cfg_all world_ok
      (VoiceRequest.mk "Intrusion detected on node 7" "de" (Some "VOC-TEST1"))
      initial_state = (Return r, st') /\
    VoiceResult.duration_estimate r = 28 / 15 /\
    15 * VoiceResult.duration_estimate r <= 28
    < 15 * (VoiceResult.duration_estimate r + 1).
Proof.
  apply (duration_estimate_floor cfg_all world_ok
           (VoiceRequest.mk "Intrusion detected on node 7" "de"
              (Some "VOC-TEST1"))
           initial_state ok_response).
  - discriminate.
  - reflexivity.
  - reflexivity.
Defined.

(** The specification's scenario: generating under "VOC-TEST1" and then
    fetching it. *)
Example generate_then_fetch_scenario :
  let '(r, st') :=
    generate_voice cfg_all world_ok
      (VoiceRequest.mk "Intrusion detected on node 7" "de" (Some "VOC-TEST1"))
      initial_state in
  r = Return (VoiceResult.mk "VOC-TEST1" "/api/audio/VOC-TEST1" 1) /\
  fst (get_audio "VOC-TEST1" st')
  = Return (AudioResponse.mk mp3_sample "audio/mpeg"
              "inline; filename=VOC-TEST1.mp3").
Proof. split; reflexivity. Qed.

(** ** The call endpoint *)

(** C10.  When the inner speech synthesis succeeds and the telephony
    provider then answers with a status other than 200 and 201, the call
    endpoint raises the upstream error (the provider's status, detail
    "Twilio error: ..."), and the audio cache still holds the synthesized
    audio under the resolved identifier: the write is not undone. *)
Theorem make_call_failure_keeps_audio (cfg : Config) (w : World)
    (req : CallRequest.t) (st : State) (audio reply : Response) :
  spec_telephony_enabled cfg ->
  ELEVENLABS_KEY cfg <> "" ->
  upstream w (sent st) (speech_request cfg (CallRequest.message req))
  = Return audio ->
  status_code audio = 200 ->
  upstream w (sent st ++ [speech_request cfg (CallRequest.message req)])
    (call_request cfg req) = Return reply ->
  status_code reply <> 200 ->
  status_code reply <> 201 ->
  exists id st0 st',
    resolve_threat_id w (CallRequest.threat_id req) "VOC-" st = (Return id, st0) /\
    make_call cfg w req st
    = (Raise (HTTPException (status_code reply)
                ("Twilio error: " +:+ text reply)), st') /\
    audio_cache st' = <[id := content audio]> (audio_cache st) /\
    audio_cache st' !! id = Some (content audio).
Proof.
  intros Ht Hk Hu1 Hs1 Hu2 Hs200 Hs201.
  destruct (resolve_threat_id_returns w (CallRequest.threat_id req) "VOC-" st)
    as (id & st0 & Hr & _ & Hcache & Hsent & _); [discriminate|].
  exists id, st0. eexists. split; [exact Hr|].
  unfold spec_telephony_enabled in Ht. apply py_all3_true in Ht.
  unfold make_call. rewrite Ht. cbn [negb]. unfold bind at 1.
  rewrite (generate_voice_ok cfg w _ st st0 id audio); try done;
    [|by rewrite Hsent].
  unfold bind at 1, client_post.
  fold (call_request cfg req).
  cbn [sent write_cache record_sent]. rewrite Hsent.
  cbn [VoiceRequest.message VoiceRequest.make].
  rewrite Hu2.
  apply Z.eqb_neq in Hs200, Hs201. rewrite Hs200, Hs201. cbn [orb negb].
  split; [reflexivity|].
  cbn [audio_cache write_cache record_sent]. rewrite Hcache.
  split; [reflexivity|].
  apply lookup_insert_eq.
Qed.

Lemma make_call_failure_keeps_audio_witness :
  exists id st0 st',
    resolve_threat_id world_speech_only (Some "VOC-TEST1") "VOC-" initial_state
    = (Return id, st0) /\
    make_call cfg_all world_speech_only
      (CallRequest.mk "+4930123456" "Intrusion detected" (Some "VOC-TEST1"))
      initial_state
    = (Raise (HTTPException 429 "Twilio error: busy"), st') /\
    audio_cache st' = <[id := mp3_sample]> (audio_cache initial_state) /\
    audio_cache st' !! id = Some mp3_sample.
Proof.
  apply (make_call_failure_keeps_audio cfg_all world_speech_only
           (CallRequest.mk "+4930123456" "Intrusion detected" (Some "VOC-TEST1"))
           initial_state ok_response busy_response).
  - unfold spec_telephony_enabled; simpl. repeat split; discriminate.
  - discriminate.
  - reflexivity.
  - reflexivity.
  - reflexivity.
  - discriminate.
  - discriminate.
Defined.

(** ** The orchestrator *)

Section Orchestrator.

Variable cfg : Config.
Variable w : World.

(** The chat client succeeds when its providers do.  Called with a
    non-empty identifier it reports that identifier, and audio as generated
    exactly when speech is enabled. *)
Lemma send_teams_ok (message id : pystr) (st : State) :
  spec_chat_enabled cfg ->
  id <> "" ->
  speech_succeeds w ->
  chat_succeeds w ->
  exists st',
    send_teams cfg w (TeamsRequest.make message (Some id)) st
    = (Return (TeamsResult.mk "sent" id "teams" (truthy (ELEVENLABS_KEY cfg))),
       st').
Proof.
  intros Hc Hid Hs Ht. unfold spec_chat_enabled in Hc.
  apply truthy_true in Hc. unfold send_teams, TeamsRequest.make.
  rewrite Hc.
  cbn [negb TeamsRequest.threat_id TeamsRequest.include_audio
       TeamsRequest.message andb].
  unfold bind at 1. rewrite resolve_supplied by done.
  destruct (truthy (ELEVENLABS_KEY cfg)) eqn:Ek.
  - apply truthy_true in Ek.
    destruct (Hs (sent st) (ELEVENLABS_VOICE cfg) (ELEVENLABS_KEY cfg) message)
      as (audio & Hu & Hst).
    unfold bind at 1. unfold bind at 1.
    rewrite (generate_voice_ok cfg w _ st st id audio); try done;
      [|by apply resolve_supplied].
    unfold ret at 1. unfold bind at 1, now_strftime. unfold bind at 1.
    unfold client_post at 1.
    match goal with
    | |- context [upstream w ?h (TeamsPost ?u ?c)] =>
        destruct (Ht h u c) as (reply & Hr & Hcode); rewrite Hr
    end.
    eexists. destruct Hcode as [-> | ->]; reflexivity.
  - unfold bind at 1. unfold ret at 1. unfold bind at 1, now_strftime.
    unfold bind at 1. unfold client_post at 1.
    match goal with
    | |- context [upstream w ?h (TeamsPost ?u ?c)] =>
        destruct (Ht h u c) as (reply & Hr & Hcode); rewrite Hr
    end.
    eexists. destruct Hcode as [-> | ->]; reflexivity.
Qed.

(** A guarded channel step of [send_alert] always returns: the handler's
    result, or the error entry built from what it raised. *)
Lemma try_except_returns {A B : Type} (m : M A) (f : A -> B)
    (g : Exception -> B) (st : State) :
  exists b st',
    try_except (r <- m ;; ret (f r)) (fun e => ret (g e)) st = (Return b, st') /\
    ((exists a, m st = (Return a, st') /\ b = f a) \/
     (exists e, m st = (Raise e, st') /\ b = g e)).
Proof.
  unfold try_except, bind, ret.
  destruct (m st) as [[a|e] st1]; eexists _, _; split; eauto.
Qed.

End Orchestrator.

(** C6.  Dispatching to the single channel "voice" with speech enabled, no
    identifier supplied and the synthesis succeeding: the entry under
    "voice" is a generate result (identifier, audio URL, duration estimate),
    like the one a direct call to the generate endpoint returns, and its
    identifier is the alert's shared "ALT-" identifier, where the direct call
    would have generated a "VOC-" one.  The audio is cached under the shared
    identifier. *)
Theorem send_alert_voice_uses_alert_id (cfg : Config) (w : World)
    (message language : pystr) (phone : option pystr) (st : State)
    (resp : Response) :
  spec_speech_enabled cfg ->
  upstream w (sent st) (speech_request cfg message) = Return resp ->
  status_code resp = 200 ->
  let alt := generated_id w "ALT-" st in
  let voc := generated_id w "VOC-" st in
  exists st' st'',
    send_alert cfg w message ["voice"] phone None st
    = (Return
         (AlertResult.mk alt
            {["voice" :=
                VoiceEntry
                  (VoiceResult.mk alt ("/api/audio/" +:+ alt)
                     (Z.of_nat (len message) / 15))]}), st') /\
    audio_cache st' !! alt = Some (content resp) /\
    generate_voice cfg w (VoiceRequest.mk message language None) st
    = (Return
         (VoiceResult.mk voc ("/api/audio/" +:+ voc)
            (Z.of_nat (len message) / 15)), st'') /\
    (exists ts, alt = "ALT-" +:+ ts) /\
    (forall ts, alt <> "VOC-" +:+ ts).
Proof.
  intros Hk Hu Hs alt voc. unfold spec_speech_enabled in Hk.
  assert (Halt : alt <> "") by discriminate.
  eexists _, _. split; [|split; [|split; [|split]]].
  - unfold send_alert. unfold bind at 1.
    rewrite resolve_generated by reflexivity. fold alt.
    replace (py_in "teams" ["voice"]) with false by reflexivity.
    replace (py_in "call" ["voice"]) with false by reflexivity.
    replace (py_in "voice" ["voice"]) with true by reflexivity.
    pose proof Hk as Hk'. apply truthy_true in Hk'. rewrite Hk'.
    cbn [andb]. unfold bind at 1, ret at 1. unfold bind at 1, ret at 1.
    unfold bind at 1, try_except. unfold bind at 1.
    rewrite (generate_voice_ok cfg w _ (tick st) (tick st) alt resp) by done.
    unfold ret. rewrite insert_empty. reflexivity.
  - apply lookup_insert_eq.
  - by apply (generate_voice_ok cfg w (VoiceRequest.mk message language None)
                st (tick st) voc resp).
  - by exists (strftime_now w (clock_reads st) "%Y%m%d%H%M%S").
  - intros ts. discriminate.
Qed.

Lemma send_alert_voice_uses_alert_id_witness :
  let alt := generated_id world_ok "ALT-" initial_state in
  let voc := generated_id world_ok "VOC-" initial_state in
  exists st' st'',
    send_alert cfg_all world_ok "test" ["voice"] None None initial_state
    = (Return
         (AlertResult.mk alt
            {["voice" :=
                VoiceEntry
                  (VoiceResult.mk alt ("/api/audio/" +:+ alt)
                     (Z.of_nat (len "test") / 15))]}), st') /\
    audio_cache st' !! alt = Some (content ok_response) /\
    generate_voice cfg_all world_ok (VoiceRequest.mk "test" "de" None)
      initial_state
    = (Return
         (VoiceResult.mk voc ("/api/audio/" +:+ voc)
            (Z.of_nat (len "test") / 15)), st'') /\
    (exists ts, alt = "ALT-" +:+ ts) /\
    (forall ts, alt <> "VOC-" +:+ ts).
Proof.
  apply (send_alert_voice_uses_alert_id cfg_all world_ok "test" "de" None
           initial_state ok_response).
  - unfold spec_speech_enabled; simpl. discriminate.
  - reflexivity.
  - reflexivity.
Defined.

(** ** State relations kept by every step of a handler *)

Section Preservation.

Context {R : State -> State -> Prop} `{!Reflexive R} `{!Transitive R}.

Lemma preserves_ret {A} (a : A) : preserves R (ret a).
Proof. intros st. reflexivity. Qed.

Lemma preserves_raise {A} (e : Exception) : preserves R (@raise A e).
Proof. intros st. reflexivity. Qed.

Lemma preserves_bind {A B} (m : M A) (k : A -> M B) :
  preserves R m -> (forall a, preserves R (k a)) -> preserves R (bind m k).
Proof.
  intros Hm Hk st. unfold bind. specialize (Hm st).
  destruct (m st) as [[a|e] st1]; [|exact Hm].
  etransitivity; [exact Hm|apply Hk].
Qed.

Lemma preserves_try_except {A} (m : M A) (h : Exception -> M A) :
  preserves R m -> (forall e, preserves R (h e)) -> preserves R (try_except m h).
Proof.
  intros Hm Hh st. unfold try_except. specialize (Hm st).
  destruct (m st) as [[a|e] st1]; [exact Hm|].
  etransitivity; [exact Hm|apply Hh].
Qed.

(** Running [m] then [k] from one given state, knowing what [m] returned. *)
Lemma bind_from {A B} (m : M A) (k : A -> M B) (st : State) :
  R st (snd (m st)) ->
  (forall a st1, m st = (Return a, st1) -> R st1 (snd (k a st1))) ->
  R st (snd (bind m k st)).
Proof.
  intros Hm Hk. unfold bind.
  destruct (m st) as [[a|e] st1] eqn:E; [|exact Hm].
  etransitivity; [exact Hm|by apply Hk].
Qed.

Lemma preserves_json_get (d : JSON) (key : pystr) : preserves R (json_get d key).
Proof. destruct d; first [apply preserves_ret | apply preserves_raise]. Qed.

Lemma preserves_resp_json (resp : Response) : preserves R (resp_json resp).
Proof.
  unfold resp_json.
  destruct (json resp); first [apply preserves_ret | apply preserves_raise].
Qed.

Lemma preserves_cache_get : preserves R cache_get.
Proof. intros st. reflexivity. Qed.

End Preservation.

#[global] Instance extends_refl : Reflexive extends.
Proof. intros st. unfold extends. split; [done|]. split; [done|lia]. Qed.

#[global] Instance extends_trans : Transitive extends.
Proof.
  intros a b c (H1 & H2 & H3) (H1' & H2' & H3'). unfold extends.
  split; [set_solver|]. split; [by etransitivity|lia].
Qed.

#[global] Instance same_cache_refl : Reflexive same_cache.
Proof. by intros st. Qed.

#[global] Instance same_cache_trans : Transitive same_cache.
Proof. unfold same_cache. intros a b c H1 H2. congruence. Qed.

#[global] Instance same_except_refl id : Reflexive (same_except id).
Proof. by intros st id'. Qed.

#[global] Instance same_except_trans id : Transitive (same_except id).
Proof.
  intros a b c H1 H2 id' Hne. rewrite H2 by done. by apply H1.
Qed.

Lemma same_cache_same_except (id : pystr) (st st' : State) :
  same_cache st st' -> same_except id st st'.
Proof. unfold same_cache. intros H id' _. by rewrite H. Qed.

(** ** Resolution as an equation *)

Lemma resolve_threat_id_eq (w : World) (tid : option pystr) (prefix : pystr)
    (st : State) :
  resolve_threat_id w tid prefix st
  = (Return (resolved_id w tid prefix st),
     if truthy_opt tid then st else tick st).
Proof.
  unfold resolve_threat_id, resolved_id.
  destruct tid as [s|]; [|reflexivity].
  simpl. destruct (truthy s); reflexivity.
Qed.

Lemma resolved_id_truthy (w : World) (tid : option pystr) (prefix : pystr)
    (st : State) :
  prefix <> "" -> truthy (resolved_id w tid prefix st) = true.
Proof.
  intros Hp. unfold resolved_id. destruct (truthy_opt tid) eqn:E.
  - destruct tid as [s|]; [exact E|discriminate].
  - unfold generated_id. by apply append_truthy, truthy_true.
Qed.

Lemma resolved_id_supplied (w : World) (id prefix : pystr) (st : State) :
  truthy id = true -> resolved_id w (Some id) prefix st = id.
Proof. intros H. unfold resolved_id. simpl. by rewrite H. Qed.

(** ** Relations kept by whole handlers

    A relation on states that is reflexive and transitive, holds across a
    clock reading and across the recording of a sent request, and holds
    across cache writes under the identifier a handler resolves, holds
    across the whole handler, on every path. *)

Section Keeps.

Variable cfg : Config.
Variable w : World.
Context {R : State -> State -> Prop} `{!Reflexive R} `{!Transitive R}.
Hypothesis R_tick : forall st, R st (tick st).
Hypothesis R_sent : forall rq st, R st (record_sent rq st).

Lemma preserves_now_strftime (fmt : pystr) : preserves R (now_strftime w fmt).
Proof. intros st. apply R_tick. Qed.

Lemma preserves_client_post (rq : Request) : preserves R (client_post w rq).
Proof. intros st. apply R_sent. Qed.

Lemma preserves_resolve_threat_id (tid : option pystr) (prefix : pystr) :
  preserves R (resolve_threat_id w tid prefix).
Proof.
  intros st. rewrite resolve_threat_id_eq. cbn [snd].
  destruct (truthy_opt tid); [reflexivity|apply R_tick].
Qed.

Lemma generate_voice_keeps (req : VoiceRequest.t) (st : State) :
  (forall data st1,
     R st1 (write_cache (resolved_id w (VoiceRequest.threat_id req) "VOC-" st)
              data st1)) ->
  R st (snd (generate_voice cfg w req st)).
Proof.
  intros Hwrite. unfold generate_voice.
  destruct (truthy (ELEVENLABS_KEY cfg)); cbn [negb]; [|reflexivity].
  apply bind_from; [apply preserves_resolve_threat_id|].
  intros id st1 Hres. rewrite resolve_threat_id_eq in Hres.
  injection Hres as <- _.
  revert st1. apply preserves_bind; [apply preserves_client_post|].
  intros resp. destruct (negb (status_code resp =? 200)%Z);
    [apply preserves_raise|].
  apply preserves_bind; [|intros; apply preserves_ret].
  intros st1. apply Hwrite.
Qed.

Lemma make_call_keeps (req : CallRequest.t) (st : State) :
  (forall data st1,
     R st1 (write_cache (resolved_id w (CallRequest.threat_id req) "VOC-" st)
              data st1)) ->
  R st (snd (make_call cfg w req st)).
Proof.
  intros Hwrite. unfold make_call.
  destruct (py_all _); cbn [negb]; [|reflexivity].
  apply bind_from; [by apply generate_voice_keeps|].
  intros voice_result st1 _. revert st1.
  apply preserves_bind; [apply preserves_client_post|].
  intros resp. destruct (negb _); [apply preserves_raise|].
  apply preserves_bind; [apply preserves_resp_json|].
  intros call_data.
  apply preserves_bind; [apply preserves_json_get|].
  intros sid. apply preserves_ret.
Qed.

Lemma send_teams_keeps (req : TeamsRequest.t) (st : State) :
  (forall data st1,
     R st1 (write_cache (resolved_id w (TeamsRequest.threat_id req) "TMS-" st)
              data st1)) ->
  R st (snd (send_teams cfg w req st)).
Proof.
  intros Hwrite. unfold send_teams.
  destruct (truthy (TEAMS_WEBHOOK cfg)); cbn [negb]; [|reflexivity].
  apply bind_from; [apply preserves_resolve_threat_id|].
  intros id st1 Hres. rewrite resolve_threat_id_eq in Hres.
  injection Hres as <- _.
  set (id := resolved_id w (TeamsRequest.threat_id req) "TMS-" st) in *.
  assert (Hid : truthy id = true) by by apply resolved_id_truthy.
  apply bind_from.
  - destruct (_ && _); [|reflexivity].
    apply bind_from; [|intros; reflexivity].
    apply generate_voice_keeps. cbn [VoiceRequest.threat_id VoiceRequest.make].
    by rewrite resolved_id_supplied.
  - intros audio_url st2 _. revert st2.
    apply preserves_bind; [apply preserves_now_strftime|].
    intros now. apply preserves_bind; [apply preserves_client_post|].
    intros resp. destruct (negb _); [apply preserves_raise|apply preserves_ret].
Qed.

Lemma send_alert_keeps (message : pystr) (channels : list pystr)
    (phone threat_id : option pystr) (st : State) :
  (forall data st1,
     R st1 (write_cache (resolved_id w threat_id "ALT-" st) data st1)) ->
  R st (snd (send_alert cfg w message channels phone threat_id st)).
Proof.
  intros Hwrite. unfold send_alert.
  apply bind_from; [apply preserves_resolve_threat_id|].
  intros id st1 Hres. rewrite resolve_threat_id_eq in Hres.
  injection Hres as <- _.
  set (id := resolved_id w threat_id "ALT-" st) in *.
  assert (Hid : truthy id = true) by by apply resolved_id_truthy.
  revert st1. apply preserves_bind.
  { destruct (_ && _); [|apply preserves_ret].
    apply preserves_try_except; [|intros; apply preserves_ret].
    apply preserves_bind; [|intros; apply preserves_ret].
    intros st1. apply send_teams_keeps.
    cbn [TeamsRequest.threat_id TeamsRequest.make].
    by rewrite resolved_id_supplied. }
  intros results1. apply preserves_bind.
  { destruct (_ && _); [|apply preserves_ret].
    apply preserves_try_except; [|intros; apply preserves_ret].
    apply preserves_bind; [|intros; apply preserves_ret].
    intros st1. apply make_call_keeps. cbn [CallRequest.threat_id].
    by rewrite resolved_id_supplied. }
  intros results2. apply preserves_bind.
  { destruct (_ && _); [|apply preserves_ret].
    apply preserves_try_except; [|intros; apply preserves_ret].
    apply preserves_bind; [|intros; apply preserves_ret].
    intros st1. apply generate_voice_keeps.
    cbn [VoiceRequest.threat_id VoiceRequest.make].
    by rewrite resolved_id_supplied. }
  intros results3. apply preserves_ret.
Qed.

End Keeps.

(** ** What a synthesis leaves behind *)

Lemma sent_after_resolve (tid : option pystr) (st : State) :
  sent (if truthy_opt tid then st else tick st) = sent st.
Proof. by destruct (truthy_opt tid). Qed.

Lemma cache_after_resolve (tid : option pystr) (st : State) :
  audio_cache (if truthy_opt tid then st else tick st) = audio_cache st.
Proof. by destruct (truthy_opt tid). Qed.

(** The two ways a synthesis ends, as used by the proofs below. *)
Lemma generate_voice_cases (cfg : Config) (w : World)
    (req : VoiceRequest.t) (st : State) :
  let id := resolved_id w (VoiceRequest.threat_id req) "VOC-" st in
  match generate_voice cfg w req st with
  | (Return r, st') =>
      exists resp,
        upstream w (sent st) (speech_request cfg (VoiceRequest.message req))
        = Return resp /\
        status_code resp = 200 /\
        r = VoiceResult.mk id ("/api/audio/" +:+ id)
              (Z.of_nat (len (VoiceRequest.message req)) / 15) /\
        audio_cache st' = <[id := content resp]> (audio_cache st) /\
        sent st' = (sent st ++ [speech_request cfg (VoiceRequest.message req)])%list
  | (Raise e, st') => audio_cache st' = audio_cache st
  end.
Proof.
  intros id. unfold generate_voice.
  destruct (truthy (ELEVENLABS_KEY cfg)); cbn [negb]; [|reflexivity].
  unfold bind at 1. rewrite resolve_threat_id_eq. fold id.
  unfold bind at 1, client_post.
  rewrite sent_after_resolve.
  fold (speech_request cfg (VoiceRequest.message req)).
  destruct (upstream w (sent st) _) as [resp|e] eqn:Eup.
  - destruct (status_code resp =? 200)%Z eqn:Est; cbn [negb].
    + apply Z.eqb_eq in Est. exists resp.
      cbn [bind cache_store ret write_cache record_sent audio_cache sent].
      rewrite cache_after_resolve, sent_after_resolve. done.
    + cbn [raise record_sent audio_cache]. apply cache_after_resolve.
  - cbn [record_sent audio_cache]. apply cache_after_resolve.
Qed.

(** X1.  Every run of the generate endpoint ends in one of two ways.  It
    returns, and then the speech provider answered 200, the result names
    the resolved identifier (the supplied one, or "VOC-" and the clock
    reading), its audio URL is "/api/audio/" followed by that identifier,
    and the cache is the old cache with the provider's audio written under
    that identifier.  Or it raises, and then the cache is unchanged. *)
Theorem generate_voice_outcomes (cfg : Config) (w : World)
    (req : VoiceRequest.t) (st : State) :
  let id := resolved_id w (VoiceRequest.threat_id req) "VOC-" st in
  match generate_voice cfg w req st with
  | (Return r, st') =>
      exists resp,
        upstream w (sent st) (speech_request cfg (VoiceRequest.message req))
        = Return resp /\
        status_code resp = 200 /\
        r = VoiceResult.mk id ("/api/audio/" +:+ id)
              (Z.of_nat (len (VoiceRequest.message req)) / 15) /\
        audio_cache st' = <[id := content resp]> (audio_cache st) /\
        sent st' = (sent st ++ [speech_request cfg (VoiceRequest.message req)])%list
  | (Raise e, st') => audio_cache st' = audio_cache st
  end.
Proof. exact (generate_voice_cases cfg w req st). Qed.

(** X2.  Generate, then fetch: whenever the generate endpoint returns a
    result, its audio URL is "/api/audio/" followed by the result's
    identifier, the cache holds under that identifier the audio the speech
    provider sent, and the retrieval endpoint called with that identifier
    returns exactly that audio as audio/mpeg, provided the identifier
    encodes as latin-1; for an identifier that does not, the retrieval
    endpoint raises [UnicodeEncodeError] instead. *)
Theorem generate_then_get_audio (cfg : Config) (w : World)
    (req : VoiceRequest.t) (st st' : State) (r : VoiceResult.t) :
  generate_voice cfg w req st = (Return r, st') ->
  exists resp,
    upstream w (sent st) (speech_request cfg (VoiceRequest.message req))
    = Return resp /\
    VoiceResult.audio_url r = "/api/audio/" +:+ VoiceResult.threat_id r /\
    audio_cache st' !! VoiceResult.threat_id r = Some (content resp) /\
    get_audio (VoiceResult.threat_id r) st'
    = (if latin1_encodable (VoiceResult.threat_id r)
       then Return (AudioResponse.mk (content resp) "audio/mpeg"
                      ("inline; filename=" +:+ VoiceResult.threat_id r
                       +:+ ".mp3"))
       else Raise (RuntimeFailure "UnicodeEncodeError"
                     ("inline; filename=" +:+ VoiceResult.threat_id r
                      +:+ ".mp3")), st').
Proof.
  intros Hrun. pose proof (generate_voice_cases cfg w req st) as Hout.
  rewrite Hrun in Hout. destruct Hout as (resp & Hup & _ & -> & Hcache & _).
  exists resp. split; [exact Hup|]. split; [reflexivity|].
  cbn [VoiceResult.threat_id].
  assert (Hin : audio_cache st'
                !! resolved_id w (VoiceRequest.threat_id req) "VOC-" st
                = Some (content resp))
    by (rewrite Hcache; apply lookup_insert_eq).
  split; [exact Hin|].
  destruct (latin1_encodable _) eqn:E.
  - by apply (get_audio_hit _ (content resp)).
  - by apply (get_audio_unencodable _ (content resp)).
Qed.

Lemma generate_then_get_audio_witness :
  exists resp,
    upstream world_ok (sent initial_state) (speech_request cfg_all "test")
    = Return resp /\
    "/api/audio/VOC-20240101120000" = "/api/audio/" +:+ "VOC-20240101120000" /\
    audio_cache
      (snd (generate_voice cfg_all world_ok (VoiceRequest.mk "test" "de" None)
              initial_state))
    !! "VOC-20240101120000" = Some (content resp) /\
    get_audio "VOC-20240101120000"
      (snd (generate_voice cfg_all world_ok (VoiceRequest.mk "test" "de" None)
              initial_state))
    = (if latin1_encodable "VOC-20240101120000"
       then Return (AudioResponse.mk (content resp) "audio/mpeg"
                      ("inline; filename=" +:+ "VOC-20240101120000"
                       +:+ ".mp3"))
       else Raise (RuntimeFailure "UnicodeEncodeError"
                     ("inline; filename=" +:+ "VOC-20240101120000"
                      +:+ ".mp3")),
       snd (generate_voice cfg_all world_ok (VoiceRequest.mk "test" "de" None)
              initial_state)).
Proof.
  apply (generate_then_get_audio cfg_all world_ok
           (VoiceRequest.mk "test" "de" None) initial_state _
           (VoiceResult.mk "VOC-20240101120000"
              "/api/audio/VOC-20240101120000" 0)).
  reflexivity.
Defined.

(** A synthesis not answered with 200, as used by the chat endpoint. *)
Lemma generate_voice_fails (cfg : Config) (w : World)
    (req : VoiceRequest.t) (st : State) (answer : Result Response) :
  ELEVENLABS_KEY cfg <> "" ->
  upstream w (sent st) (speech_request cfg (VoiceRequest.message req)) = answer ->
  (forall resp, answer = Return resp -> status_code resp <> 200) ->
  exists st',
    generate_voice cfg w req st
    = (Raise (match answer with
              | Return resp =>
                  HTTPException (status_code resp)
                    ("ElevenLabs error: " +:+ text resp)
              | Raise e => e
              end), st') /\
    audio_cache st' = audio_cache st /\
    sent st' = (sent st ++ [speech_request cfg (VoiceRequest.message req)])%list.
Proof.
  intros Hk Hup Hstatus. apply truthy_true in Hk.
  unfold generate_voice. rewrite Hk. cbn [negb].
  unfold bind at 1. rewrite resolve_threat_id_eq.
  unfold bind at 1, client_post. rewrite sent_after_resolve.
  fold (speech_request cfg (VoiceRequest.message req)). rewrite Hup.
  destruct answer as [resp|e].
  - specialize (Hstatus resp eq_refl). apply Z.eqb_neq in Hstatus.
    rewrite Hstatus. cbn [negb raise]. eexists. split; [reflexivity|].
    cbn [record_sent audio_cache sent].
    by rewrite cache_after_resolve, sent_after_resolve.
  - eexists. split; [reflexivity|].
    cbn [record_sent audio_cache sent].
    by rewrite cache_after_resolve, sent_after_resolve.
Qed.

(** X3.  A synthesis the provider does not answer with 200 fails with the
    provider's own failure: a response with another status becomes an
    HTTPException carrying that status and "ElevenLabs error: " followed by
    the response text; an exception of the transport is passed on as it is.
    The request was sent and the cache is unchanged. *)
Theorem generate_voice_upstream_failure (cfg : Config) (w : World)
    (req : VoiceRequest.t) (st : State) (answer : Result Response) :
  ELEVENLABS_KEY cfg <> "" ->
  upstream w (sent st) (speech_request cfg (VoiceRequest.message req)) = answer ->
  (forall resp, answer = Return resp -> status_code resp <> 200) ->
  exists st',
    generate_voice cfg w req st
    = (Raise (match answer with
              | Return resp =>
                  HTTPException (status_code resp)
                    ("ElevenLabs error: " +:+ text resp)
              | Raise e => e
              end), st') /\
    audio_cache st' = audio_cache st /\
    sent st' = (sent st ++ [speech_request cfg (VoiceRequest.message req)])%list.
Proof. exact (generate_voice_fails cfg w req st answer). Qed.

Lemma generate_voice_upstream_failure_witness :
  exists st',
    generate_voice cfg_all world_speech_down
      (VoiceRequest.mk "test" "de" (Some "VOC-TEST1")) initial_state
    = (Raise (HTTPException 429 "ElevenLabs error: busy"), st') /\
    audio_cache st' = audio_cache initial_state /\
    sent st' = (sent initial_state ++ [speech_request cfg_all "test"])%list.
Proof.
  apply (generate_voice_upstream_failure cfg_all world_speech_down
           (VoiceRequest.mk "test" "de" (Some "VOC-TEST1")) initial_state
           (Return busy_response)).
  - discriminate.
  - reflexivity.
  - intros resp [= <-]. discriminate.
Defined.

(** ** What a call leaves behind *)

Lemma find_key_spec (fields : list (pystr * JSON)) (key : pystr) :
  match find (fun kv => bool_decide (fst kv = key)) fields with
  | Some kv => kv ∈ fields /\ fst kv = key
  | None => forall v, (key, v) ∉ fields
  end.
Proof.
  induction fields as [|[k v] rest IH]; cbn [find fst].
  - intros v Hin. by apply not_elem_of_nil in Hin.
  - destruct (bool_decide (k = key)) eqn:E.
    + apply bool_decide_eq_true in E. split; [left|exact E].
    + apply bool_decide_eq_false in E.
      destruct (find _ rest) as [kv|].
      * destruct IH as [Hin Hk]. split; [by right|exact Hk].
      * intros v' Hin. apply elem_of_cons in Hin as [[= Hk _]|Hin];
          [congruence|by apply (IH v')].
Qed.

(** What holds when the call endpoint has returned, as used by the
    orchestrator. *)
Lemma make_call_returned (cfg : Config) (w : World)
    (req : CallRequest.t) (st st' : State) (r : CallResult.t) :
  make_call cfg w req st = (Return r, st') ->
  let speech := speech_request cfg (CallRequest.message req) in
  spec_telephony_enabled cfg /\
  sent st' = (sent st ++ [speech; call_request cfg req])%list /\
  (exists reply fields,
     upstream w (sent st ++ [speech])%list (call_request cfg req) = Return reply /\
     (status_code reply = 200 \/ status_code reply = 201) /\
     json reply = Some (JObj fields) /\
     (("sid", CallResult.call_sid r) ∈ fields \/
      (CallResult.call_sid r = JNull /\ forall v, ("sid", v) ∉ fields))) /\
  CallResult.status r = "initiated" /\
  CallResult.to r = CallRequest.to_number req /\
  CallResult.threat_id r
  = resolved_id w (CallRequest.threat_id req) "VOC-" st /\
  is_Some (audio_cache st' !! CallResult.threat_id r).
Proof.
  intros Hrun speech. revert Hrun. unfold make_call.
  destruct (py_all _) eqn:Eall; cbn [negb]; [|discriminate].
  apply py_all3_true in Eall. unfold bind at 1.
  pose proof (generate_voice_cases cfg w
                (VoiceRequest.make (CallRequest.message req)
                   (CallRequest.threat_id req)) st) as Hvoice.
  destruct (generate_voice cfg w _ st) as [[vr|e] st1]; [|discriminate].
  cbn [VoiceRequest.make VoiceRequest.message VoiceRequest.threat_id] in Hvoice.
  destruct Hvoice as (audio & _ & _ & -> & Hcache & Hsent).
  unfold bind at 1, client_post. fold (call_request cfg req).
  rewrite Hsent. fold speech.
  destruct (upstream w _ (call_request cfg req)) as [reply|e] eqn:Eup;
    [|discriminate].
  destruct (status_code reply =? 200)%Z eqn:E200;
    destruct (status_code reply =? 201)%Z eqn:E201; cbn [orb negb];
    try discriminate.
  all: unfold bind at 1, resp_json;
    destruct (json reply) as [d|] eqn:Ejson; [|discriminate];
    unfold ret at 1; unfold bind at 1;
    destruct d as [| | | | |fields]; try discriminate;
    cbn [json_get ret];
    pose proof (find_key_spec fields "sid") as Hfind;
    intros [= <- <-];
    cbn [CallResult.status CallResult.to CallResult.threat_id
         CallResult.call_sid record_sent sent audio_cache];
    (split; [exact Eall|]);
    (split; [by rewrite Hsent, <- app_assoc|]);
    (split; [|split; [done|split; [done|split; [done|]]];
             rewrite Hcache, lookup_insert_eq; eauto]);
    exists reply, fields; (split; [done|]);
    (split; [apply Z.eqb_eq in E200 || apply Z.eqb_eq in E201; tauto|]);
    (split; [done|]);
    destruct (find _ fields) as [[k v]|];
    [left; destruct Hfind as [Hin Hk]; cbn [fst snd] in *; by subst k
    |right; by split].
Qed.



(** The call endpoint returns when its providers accept. *)
Lemma make_call_returns (cfg : Config) (w : World) (req : CallRequest.t)
    (st : State) :
  spec_telephony_enabled cfg ->
  spec_speech_enabled cfg ->
  speech_succeeds w ->
  call_succeeds w ->
  exists r st', make_call cfg w req st = (Return r, st').
Proof.
  intros Ht Hk Hs Hc. unfold spec_telephony_enabled in Ht.
  apply py_all3_true in Ht. unfold make_call. rewrite Ht. cbn [negb].
  set (vreq := VoiceRequest.make (CallRequest.message req)
                 (CallRequest.threat_id req)).
  destruct (Hs (sent st) (ELEVENLABS_VOICE cfg) (ELEVENLABS_KEY cfg)
              (CallRequest.message req)) as (audio & Hup & Hst).
  unfold bind at 1.
  rewrite (generate_voice_ok cfg w vreq st _ _ audio Hk
             (resolve_threat_id_eq w _ "VOC-" st));
    [|by rewrite sent_after_resolve|done].
  unfold bind at 1, client_post.
  match goal with
  | |- context [upstream w ?h (TwilioPost ?a ?b ?c ?d ?e)] =>
      destruct (Hc h a b c d e) as (reply & fields & -> & Hcode & Hjson)
  end.
  unfold resp_json. rewrite Hjson.
  destruct Hcode as [-> | ->]; cbn; eauto.
Qed.

(** X5.  With telephony and speech configured and the speech and telephony
    providers accepting, the call endpoint returns a result for every
    request. *)
Theorem make_call_accepted (cfg : Config) (w : World) (req : CallRequest.t)
    (st : State) :
  spec_telephony_enabled cfg ->
  spec_speech_enabled cfg ->
  speech_succeeds w ->
  call_succeeds w ->
  exists r st', make_call cfg w req st = (Return r, st').
Proof. exact (make_call_returns cfg w req st). Qed.

Lemma make_call_accepted_witness :
  exists r st',
    make_call cfg_all world_all_ok
      (CallRequest.mk "+4930123456" "Intrusion detected" None) initial_state
    = (Return r, st').
Proof.
  apply (make_call_accepted cfg_all world_all_ok).
  - unfold spec_telephony_enabled; simpl. repeat split; discriminate.
  - discriminate.
  - intros h v k t. exists ok_response. by split.
  - intros h a b c d e. exists created_response. eexists.
    split; [reflexivity|]. split; [by right|reflexivity].
Defined.

(** X6.  A call the provider accepts (200 or 201) with a body that is not a
    JSON object makes the call endpoint fail with an exception that is not
    an HTTPException, although the call request has been sent and the audio
    is cached. *)
Theorem make_call_unreadable_reply (cfg : Config) (w : World)
    (req : CallRequest.t) (st : State) (audio reply : Response) :
  let speech := speech_request cfg (CallRequest.message req) in
  spec_telephony_enabled cfg ->
  spec_speech_enabled cfg ->
  upstream w (sent st) speech = Return audio ->
  status_code audio = 200 ->
  upstream w (sent st ++ [speech])%list (call_request cfg req) = Return reply ->
  status_code reply = 200 \/ status_code reply = 201 ->
  (forall fields, json reply <> Some (JObj fields)) ->
  exists e st',
    make_call cfg w req st = (Raise e, st') /\
    (forall code detail, e <> HTTPException code detail) /\
    sent st' = (sent st ++ [speech; call_request cfg req])%list /\
    audio_cache st'
    !! resolved_id w (CallRequest.threat_id req) "VOC-" st
    = Some (content audio).
Proof.
  intros speech Ht Hk Hup Hst Hcall Hcode Hjson.
  unfold spec_telephony_enabled in Ht.
  apply py_all3_true in Ht. unfold make_call. rewrite Ht. cbn [negb].
  set (vreq := VoiceRequest.make (CallRequest.message req)
                 (CallRequest.threat_id req)).
  unfold bind at 1.
  rewrite (generate_voice_ok cfg w vreq st _ _ audio Hk
             (resolve_threat_id_eq w _ "VOC-" st));
    [|by rewrite sent_after_resolve|done].
  unfold bind at 1, client_post. fold (call_request cfg req).
  cbn [write_cache record_sent sent VoiceRequest.message vreq
       VoiceRequest.make].
  rewrite sent_after_resolve. fold speech. rewrite Hcall.
  assert (Hpass : negb ((status_code reply =? 200)%Z
                        || (status_code reply =? 201)%Z) = false)
    by (destruct Hcode as [-> | ->]; reflexivity).
  rewrite Hpass. unfold bind at 1, resp_json.
  assert (Hend : forall st1 : State,
    sent st1 = (sent st ++ [speech; call_request cfg req])%list ->
    audio_cache st1 !! resolved_id w (CallRequest.threat_id req) "VOC-" st
    = Some (content audio) ->
    forall e, (forall code detail, e <> HTTPException code detail) ->
    exists e' st', (@Raise CallResult.t e, st1) = (Raise e', st') /\
      (forall code detail, e' <> HTTPException code detail) /\
      sent st' = (sent st ++ [speech; call_request cfg req])%list /\
      audio_cache st' !! resolved_id w (CallRequest.threat_id req) "VOC-" st
      = Some (content audio)) by (intros; eauto 10).
  assert (Hsent1 : forall tid : option pystr,
    sent (record_sent (call_request cfg req)
            (write_cache (resolved_id w tid "VOC-" st) (content audio)
               (record_sent speech (if truthy_opt tid then st else tick st))))
    = (sent st ++ [speech; call_request cfg req])%list).
  { intros tid. cbn [record_sent write_cache sent].
    by rewrite sent_after_resolve, <- app_assoc. }
  destruct (json reply) as [d|] eqn:Ej.
  - unfold ret at 1. unfold bind at 1.
    destruct d as [| | | | |fields]; [..|by destruct (Hjson fields)];
      cbn [json_get]; unfold raise;
      (apply Hend; [apply Hsent1|apply lookup_insert_eq|discriminate]).
  - unfold raise.
    apply Hend; [apply Hsent1|apply lookup_insert_eq|discriminate].
Qed.

Lemma make_call_unreadable_reply_witness :
  let req := CallRequest.mk "+4930123456" "Intrusion detected" None in
  let speech := speech_request cfg_all (CallRequest.message req) in
  exists e st',
    make_call cfg_all world_ok req initial_state = (Raise e, st') /\
    (forall code detail, e <> HTTPException code detail) /\
    sent st' = (sent initial_state ++ [speech; call_request cfg_all req])%list /\
    audio_cache st'
    !! resolved_id world_ok (CallRequest.threat_id req) "VOC-" initial_state
    = Some (content ok_response).
Proof.
  intros req.
  apply (make_call_unreadable_reply cfg_all world_ok req initial_state
           ok_response ok_response).
  - unfold spec_telephony_enabled; simpl. repeat split; discriminate.
  - discriminate.
  - reflexivity.
  - reflexivity.
  - reflexivity.
  - by left.
  - discriminate.
Defined.

(** ** What a chat notification leaves behind *)

(** What holds when the chat endpoint has returned, as used by the
    orchestrator. *)
Lemma send_teams_returned (cfg : Config) (w : World)
    (req : TeamsRequest.t) (st st' : State) (r : TeamsResult.t) :
  send_teams cfg w req st = (Return r, st') ->
  let id := resolved_id w (TeamsRequest.threat_id req) "TMS-" st in
  let speech := speech_request cfg (TeamsRequest.message req) in
  spec_chat_enabled cfg /\
  r = TeamsResult.mk "sent" id "teams"
        (TeamsRequest.include_audio req && truthy (ELEVENLABS_KEY cfg)) /\
  (TeamsResult.audio_generated r = true ->
   exists audio,
     upstream w (sent st) speech = Return audio /\
     audio_cache st' = <[id := content audio]> (audio_cache st)) /\
  (TeamsResult.audio_generated r = false -> audio_cache st' = audio_cache st) /\
  exists now,
    sent st'
    = (sent st ++ (if TeamsResult.audio_generated r then [speech] else [])
         ++ [TeamsPost (TEAMS_WEBHOOK cfg)
               {| activitySubtitle := "Threat ID: " +:+ id;
                  fact_Time := now;
                  card_text := TeamsRequest.message req |}])%list.
Proof.
  intros Hrun id speech. revert Hrun. unfold send_teams.
  destruct (truthy (TEAMS_WEBHOOK cfg)) eqn:Ehook; cbn [negb]; [|discriminate].
  apply truthy_true in Ehook.
  unfold bind at 1. rewrite resolve_threat_id_eq. fold id.
  set (st0 := if truthy_opt (TeamsRequest.threat_id req) then st else tick st).
  assert (Hid : truthy id = true) by by apply resolved_id_truthy.
  assert (Hsent0 : sent st0 = sent st) by apply sent_after_resolve.
  assert (Hcache0 : audio_cache st0 = audio_cache st) by apply cache_after_resolve.
  unfold bind at 1.
  destruct (TeamsRequest.include_audio req && truthy (ELEVENLABS_KEY cfg)) eqn:Eaudio.
  - unfold bind at 1.
    pose proof (generate_voice_cases cfg w
                  (VoiceRequest.make (TeamsRequest.message req) (Some id)) st0)
      as Hvoice.
    destruct (generate_voice cfg w _ st0) as [[vr|e] st1]; [|discriminate].
    cbn [VoiceRequest.make VoiceRequest.message VoiceRequest.threat_id] in Hvoice.
    rewrite resolved_id_supplied in Hvoice by done.
    destruct Hvoice as (audio & Hup & _ & -> & Hcache & Hsent).
    unfold ret at 1. unfold bind at 1, now_strftime. unfold bind at 1.
    unfold client_post at 1.
    match goal with
    | |- match ?u with _ => _ end = _ -> _ =>
        destruct u as [reply|e]; [|discriminate]
    end.
    destruct (negb _); [discriminate|].
    intros [= <- <-]. cbn [TeamsResult.audio_generated].
    split; [exact Ehook|]. split; [reflexivity|]. split.
    { intros _. exists audio. rewrite <- Hsent0.
      split; [exact Hup|].
      cbn [record_sent tick audio_cache]. by rewrite Hcache, Hcache0. }
    split; [discriminate|].
    eexists. cbn [record_sent tick sent]. rewrite Hsent, Hsent0.
    by rewrite <- app_assoc.
  - unfold ret at 1. unfold bind at 1, now_strftime. unfold bind at 1.
    unfold client_post at 1.
    match goal with
    | |- match ?u with _ => _ end = _ -> _ =>
        destruct u as [reply|e]; [|discriminate]
    end.
    destruct (negb _); [discriminate|].
    intros [= <- <-]. cbn [TeamsResult.audio_generated].
    split; [exact Ehook|]. split; [reflexivity|].
    split; [discriminate|]. split.
    { intros _. cbn [record_sent tick audio_cache]. exact Hcache0. }
    eexists. cbn [record_sent tick sent]. rewrite Hsent0. reflexivity.
Qed.

(** X7.  Whenever the chat endpoint returns a result: the webhook is
    configured; the result is "sent" on channel "teams" under the resolved
    identifier (the supplied one, or "TMS-" and the clock reading); audio is
    reported as generated exactly when the request asked for it and speech
    is configured, and then the provider's audio is cached under that same
    identifier, while otherwise the cache is unchanged and no synthesis was
    requested; the last request sent is the card to the configured webhook,
    with the identifier in its subtitle and the message as its text. *)
Theorem send_teams_outcomes (cfg : Config) (w : World)
    (req : TeamsRequest.t) (st st' : State) (r : TeamsResult.t) :
  send_teams cfg w req st = (Return r, st') ->
  let id := resolved_id w (TeamsRequest.threat_id req) "TMS-" st in
  let speech := speech_request cfg (TeamsRequest.message req) in
  spec_chat_enabled cfg /\
  r = TeamsResult.mk "sent" id "teams"
        (TeamsRequest.include_audio req && truthy (ELEVENLABS_KEY cfg)) /\
  (TeamsResult.audio_generated r = true ->
   exists audio,
     upstream w (sent st) speech = Return audio /\
     audio_cache st' = <[id := content audio]> (audio_cache st)) /\
  (TeamsResult.audio_generated r = false -> audio_cache st' = audio_cache st) /\
  exists now,
    sent st'
    = (sent st ++ (if TeamsResult.audio_generated r then [speech] else [])
         ++ [TeamsPost (TEAMS_WEBHOOK cfg)
               {| activitySubtitle := "Threat ID: " +:+ id;
                  fact_Time := now;
                  card_text := TeamsRequest.message req |}])%list.
Proof. exact (send_teams_returned cfg w req st st' r). Qed.

Lemma send_teams_outcomes_witness :
  let req := TeamsRequest.mk "Intrusion detected" None true in
  let st' := snd (send_teams cfg_all world_ok req initial_state) in
  let r := TeamsResult.mk "sent" "TMS-20240101120000" "teams" true in
  let id := resolved_id world_ok (TeamsRequest.threat_id req) "TMS-"
              initial_state in
  let speech := speech_request cfg_all (TeamsRequest.message req) in
  spec_chat_enabled cfg_all /\
  r = TeamsResult.mk "sent" id "teams"
        (TeamsRequest.include_audio req && truthy (ELEVENLABS_KEY cfg_all)) /\
  (TeamsResult.audio_generated r = true ->
   exists audio,
     upstream world_ok (sent initial_state) speech = Return audio /\
     audio_cache st' = <[id := content audio]> (audio_cache initial_state)) /\
  (TeamsResult.audio_generated r = false ->
   audio_cache st' = audio_cache initial_state) /\
  exists now,
    sent st'
    = (sent initial_state
         ++ (if TeamsResult.audio_generated r then [speech] else [])
         ++ [TeamsPost (TEAMS_WEBHOOK cfg_all)
               {| activitySubtitle := "Threat ID: " +:+ id;
                  fact_Time := now;
                  card_text := TeamsRequest.message req |}])%list.
Proof.
  intros req st' r.
  apply (send_teams_outcomes cfg_all world_ok req initial_state st' r).
  reflexivity.
Defined.

(** X8.  A failed synthesis blocks the chat notification: when the request
    asks for audio, speech is configured and the speech provider does not
    answer 200, the chat endpoint fails with the synthesis failure, and the
    only request sent is the synthesis request: no card is posted. *)
Theorem send_teams_speech_failure_blocks_card (cfg : Config) (w : World)
    (req : TeamsRequest.t) (st : State) (answer : Result Response) :
  let speech := speech_request cfg (TeamsRequest.message req) in
  spec_chat_enabled cfg ->
  spec_speech_enabled cfg ->
  TeamsRequest.include_audio req = true ->
  upstream w (sent st) speech = answer ->
  (forall resp, answer = Return resp -> status_code resp <> 200) ->
  exists st',
    send_teams cfg w req st
    = (Raise (match answer with
              | Return resp =>
                  HTTPException (status_code resp)
                    ("ElevenLabs error: " +:+ text resp)
              | Raise e => e
              end), st') /\
    sent st' = (sent st ++ [speech])%list /\
    audio_cache st' = audio_cache st.
Proof.
  intros speech Hchat Hk Haudio Hup Hstatus.
  unfold spec_chat_enabled in Hchat. apply truthy_true in Hchat.
  pose proof Hk as Hk'. apply truthy_true in Hk'.
  unfold send_teams. rewrite Hchat, Haudio, Hk'. cbn [negb andb].
  unfold bind at 1. rewrite resolve_threat_id_eq.
  set (st0 := if truthy_opt (TeamsRequest.threat_id req) then st else tick st).
  assert (Hsent0 : sent st0 = sent st) by apply sent_after_resolve.
  assert (Hcache0 : audio_cache st0 = audio_cache st) by apply cache_after_resolve.
  unfold bind at 1. unfold bind at 1.
  destruct (generate_voice_fails cfg w
              (VoiceRequest.make (TeamsRequest.message req)
                 (Some (resolved_id w (TeamsRequest.threat_id req) "TMS-" st)))
              st0 answer Hk) as (st1 & -> & Hcache & Hsent);
    [by rewrite Hsent0|exact Hstatus|].
  exists st1. split; [reflexivity|].
  cbn [VoiceRequest.make VoiceRequest.message] in Hsent.
  by rewrite Hsent, Hcache, Hsent0, Hcache0.
Qed.

Lemma send_teams_speech_failure_blocks_card_witness :
  let req := TeamsRequest.mk "Intrusion detected" None true in
  let speech := speech_request cfg_all (TeamsRequest.message req) in
  exists st',
    send_teams cfg_all world_speech_down req initial_state
    = (Raise (HTTPException 429 "ElevenLabs error: busy"), st') /\
    sent st' = (sent initial_state ++ [speech])%list /\
    audio_cache st' = audio_cache initial_state.
Proof.
  intros req.
  apply (send_teams_speech_failure_blocks_card cfg_all world_speech_down req
           initial_state (Return busy_response)).
  - discriminate.
  - discriminate.
  - reflexivity.
  - reflexivity.
  - intros resp [= <-]. discriminate.
Defined.

(** A card the webhook rejects, as used by the orchestrator. *)
Lemma send_teams_rejected (cfg : Config) (w : World)
    (req : TeamsRequest.t) (st : State) (audio reply : Response) :
  let id := resolved_id w (TeamsRequest.threat_id req) "TMS-" st in
  let st0 := if truthy_opt (TeamsRequest.threat_id req) then st else tick st in
  let synth := TeamsRequest.include_audio req && truthy (ELEVENLABS_KEY cfg) in
  let speech := speech_request cfg (TeamsRequest.message req) in
  let card :=
    {| activitySubtitle := "Threat ID: " +:+ id;
       fact_Time := strftime_now w (clock_reads st0) "%Y-%m-%d %H:%M:%S UTC";
       card_text := TeamsRequest.message req |} in
  let history := (sent st ++ (if synth then [speech] else []))%list in
  spec_chat_enabled cfg ->
  (synth = true ->
   upstream w (sent st) speech = Return audio /\ status_code audio = 200) ->
  upstream w history (TeamsPost (TEAMS_WEBHOOK cfg) card) = Return reply ->
  status_code reply <> 200 ->
  status_code reply <> 201 ->
  exists st',
    send_teams cfg w req st
    = (Raise (HTTPException (status_code reply)
                ("Teams error: " +:+ text reply)), st') /\
    sent st' = (history ++ [TeamsPost (TEAMS_WEBHOOK cfg) card])%list /\
    audio_cache st'
    = (if synth then <[id := content audio]> (audio_cache st)
       else audio_cache st).
Proof.
  intros id st0 synth speech card history Hchat Hsynth Hreply H200 H201.
  unfold spec_chat_enabled in Hchat. apply truthy_true in Hchat.
  apply Z.eqb_neq in H200, H201.
  unfold send_teams. rewrite Hchat. cbn [negb].
  unfold bind at 1. rewrite resolve_threat_id_eq. fold id st0.
  assert (Hid : truthy id = true) by by apply resolved_id_truthy.
  assert (Hsent0 : sent st0 = sent st) by apply sent_after_resolve.
  assert (Hcache0 : audio_cache st0 = audio_cache st)
    by apply cache_after_resolve.
  unfold bind at 1. fold synth. subst history.
  destruct synth eqn:Esynth.
  - destruct (Hsynth eq_refl) as [Hup Hst].
    apply andb_true_iff in Esynth as [_ Ekey]. apply truthy_true in Ekey.
    unfold bind at 1.
    rewrite (generate_voice_ok cfg w _ st0 st0 id audio Ekey);
      [|by apply resolve_supplied, truthy_true|by rewrite Hsent0|exact Hst].
    unfold ret at 1. unfold bind at 1, now_strftime. unfold bind at 1.
    unfold client_post at 1.
    cbn [record_sent write_cache tick sent clock_reads VoiceRequest.message
         VoiceRequest.make].
    rewrite Hsent0. fold speech card. rewrite Hreply, H200, H201.
    cbn [orb negb raise]. eexists. split; [reflexivity|].
    cbn [record_sent write_cache tick sent audio_cache].
    rewrite Hsent0, Hcache0. by rewrite <- app_assoc.
  - rewrite app_nil_r in Hreply. rewrite app_nil_r.
    unfold ret at 1. unfold bind at 1, now_strftime. unfold bind at 1.
    unfold client_post at 1. cbn [tick sent clock_reads].
    rewrite Hsent0. fold card. rewrite Hreply, H200, H201.
    cbn [orb negb raise]. eexists. split; [reflexivity|].
    cbn [record_sent tick sent audio_cache].
    by rewrite Hsent0, Hcache0.
Qed.

(** X9.  A rejected card: when the webhook answers the card with a status
    other than 200 and 201 (the synthesis, if one is made, having been
    answered with 200), the chat endpoint fails with that status and "Teams
    error: " followed by the response text.  The card was sent last, and
    the cache is left as the synthesis made it: the old cache with the
    provider's audio under the resolved identifier when audio was asked for
    and speech is configured, the old cache otherwise. *)
Theorem send_teams_webhook_failure (cfg : Config) (w : World)
    (req : TeamsRequest.t) (st : State) (audio reply : Response) :
  let id := resolved_id w (TeamsRequest.threat_id req) "TMS-" st in
  let st0 := if truthy_opt (TeamsRequest.threat_id req) then st else tick st in
  let synth := TeamsRequest.include_audio req && truthy (ELEVENLABS_KEY cfg) in
  let speech := speech_request cfg (TeamsRequest.message req) in
  let card :=
    {| activitySubtitle := "Threat ID: " +:+ id;
       fact_Time := strftime_now w (clock_reads st0) "%Y-%m-%d %H:%M:%S UTC";
       card_text := TeamsRequest.message req |} in
  let history := (sent st ++ (if synth then [speech] else []))%list in
  spec_chat_enabled cfg ->
  (synth = true ->
   upstream w (sent st) speech = Return audio /\ status_code audio = 200) ->
  upstream w history (TeamsPost (TEAMS_WEBHOOK cfg) card) = Return reply ->
  status_code reply <> 200 ->
  status_code reply <> 201 ->
  exists st',
    send_teams cfg w req st
    = (Raise (HTTPException (status_code reply)
                ("Teams error: " +:+ text reply)), st') /\
    sent st' = (history ++ [TeamsPost (TEAMS_WEBHOOK cfg) card])%list /\
    audio_cache st'
    = (if synth then <[id := content audio]> (audio_cache st)
       else audio_cache st).
Proof. exact (send_teams_rejected cfg w req st audio reply). Qed.

Lemma send_teams_webhook_failure_witness :
  let req := TeamsRequest.mk "Intrusion detected" (Some "ALT-7") true in
  let speech := speech_request cfg_all "Intrusion detected" in
  let card :=
    {| activitySubtitle := "Threat ID: ALT-7";
       fact_Time := "20240101120000";
       card_text := "Intrusion detected" |} in
  exists st',
    send_teams cfg_all world_speech_only req initial_state
    = (Raise (HTTPException 429 "Teams error: busy"), st') /\
    sent st' = [speech; TeamsPost (TEAMS_WEBHOOK cfg_all) card] /\
    audio_cache st' = <["ALT-7" := mp3_sample]> (audio_cache initial_state).
Proof.
  intros req speech card.
  apply (send_teams_webhook_failure cfg_all world_speech_only req
           initial_state ok_response busy_response).
  - discriminate.
  - intros _. by split.
  - reflexivity.
  - discriminate.
  - discriminate.
Defined.

(** ** The orchestrator, step by step *)

Lemma guarded_step {A} (w : World) (guard : bool) (m : M A)
    (wrap : A -> ChannelEntry) (key : pystr)
    (results : gmap pystr ChannelEntry) (st : State) :
  exists results' st',
    (if guard
     then try_except (r <- m ;; ret (<[key := wrap r]> results))
            (fun e => ret (<[key := ErrorEntry (str w e)]> results))
     else ret results) st = (Return results', st') /\
    step_outcome w guard m wrap key results st results' st'.
Proof.
  unfold step_outcome. destruct guard; [|by eexists _, _].
  unfold try_except, bind, ret.
  destruct (m st) as [[a|e] st1]; eexists _, _; split; eauto.
Qed.

Lemma step_outcome_keys {A} (w : World) (guard : bool) (m : M A)
    (wrap : A -> ChannelEntry) (key : pystr)
    (results results' : gmap pystr ChannelEntry) (st st' : State) :
  step_outcome w guard m wrap key results st results' st' ->
  forall k,
    is_Some (results' !! k) <->
    is_Some (results !! k) \/ (k = key /\ guard = true).
Proof.
  unfold step_outcome. intros H k. destruct guard.
  - assert (Hins : exists entry, results' = <[key := entry]> results)
      by (destruct H as [(a & _ & ->) | (e & _ & ->)]; eauto).
    destruct Hins as (entry & ->). rewrite lookup_insert_is_Some.
    destruct (decide (key = k)) as [<-|Hne]; [by intuition eauto|].
    split; [intros [?|[_ ?]]; [done|by left]|].
    intros [?|[-> _]]; [by right|done].
  - destruct H as [-> _]. split; [by left|]. by intros [?|[_ ?]].
Qed.

(** The orchestrator as a sequence of three guarded steps from the state
    left by resolving the identifier. *)
Lemma send_alert_steps (cfg : Config) (w : World) (message : pystr)
    (channels : list pystr) (phone threat_id : option pystr) (st : State) :
  let id := resolved_id w threat_id "ALT-" st in
  let st0 := if truthy_opt threat_id then st else tick st in
  exists r1 st1 r2 st2 r3 st3,
    send_alert cfg w message channels phone threat_id st
    = (Return (AlertResult.mk id r3), st3) /\
    step_outcome w (py_in "teams" channels && truthy (TEAMS_WEBHOOK cfg))
      (send_teams cfg w (TeamsRequest.make message (Some id)))
      TeamsEntry "teams" ∅ st0 r1 st1 /\
    step_outcome w
      (py_in "call" channels && truthy_opt phone && truthy (TWILIO_SID cfg))
      (make_call cfg w (CallRequest.mk (default "" phone) message (Some id)))
      CallEntry "call" r1 st1 r2 st2 /\
    step_outcome w (py_in "voice" channels && truthy (ELEVENLABS_KEY cfg))
      (generate_voice cfg w (VoiceRequest.make message (Some id)))
      VoiceEntry "voice" r2 st2 r3 st3.
Proof.
  intros id st0. unfold send_alert.
  unfold bind at 1. rewrite resolve_threat_id_eq. fold id st0.
  destruct (guarded_step w
              (py_in "teams" channels && truthy (TEAMS_WEBHOOK cfg))
              (send_teams cfg w (TeamsRequest.make message (Some id)))
              TeamsEntry "teams" ∅ st0) as (r1 & st1 & Hrun1 & H1).
  unfold bind at 1. rewrite Hrun1.
  destruct (guarded_step w
              (py_in "call" channels && truthy_opt phone
               && truthy (TWILIO_SID cfg))
              (make_call cfg w
                 (CallRequest.mk (default "" phone) message (Some id)))
              CallEntry "call" r1 st1) as (r2 & st2 & Hrun2 & H2).
  unfold bind at 1. rewrite Hrun2.
  destruct (guarded_step w
              (py_in "voice" channels && truthy (ELEVENLABS_KEY cfg))
              (generate_voice cfg w (VoiceRequest.make message (Some id)))
              VoiceEntry "voice" r2 st2) as (r3 & st3 & Hrun3 & H3).
  unfold bind at 1. rewrite Hrun3.
  by exists r1, st1, r2, st2, r3, st3.
Qed.

(** The orchestrator returns, with the keys its guards let through. *)
Lemma send_alert_returns (cfg : Config) (w : World) (message : pystr)
    (channels : list pystr) (phone threat_id : option pystr) (st : State) :
  exists res st',
    send_alert cfg w message channels phone threat_id st = (Return res, st') /\
    AlertResult.threat_id res = resolved_id w threat_id "ALT-" st /\
    forall k,
      is_Some (AlertResult.channels res !! k) <->
      (k = "teams" /\ "teams" ∈ channels /\ TEAMS_WEBHOOK cfg <> "") \/
      (k = "call" /\ "call" ∈ channels /\ truthy_opt phone = true /\
       TWILIO_SID cfg <> "") \/
      (k = "voice" /\ "voice" ∈ channels /\ ELEVENLABS_KEY cfg <> "").
Proof.
  destruct (send_alert_steps cfg w message channels phone threat_id st)
    as (r1 & st1 & r2 & st2 & r3 & st3 & Hrun & H1 & H2 & H3).
  eexists _, _. split; [exact Hrun|]. split; [reflexivity|].
  intros k. cbn [AlertResult.channels].
  rewrite (step_outcome_keys _ _ _ _ _ _ _ _ _ H3 k).
  rewrite (step_outcome_keys _ _ _ _ _ _ _ _ _ H2 k).
  rewrite (step_outcome_keys _ _ _ _ _ _ _ _ _ H1 k).
  rewrite lookup_empty, is_Some_alt, !andb_true_iff, !py_in_true, !truthy_true.
  tauto.
Qed.

(** X10.  The orchestrator never fails: whatever the channel handlers and
    the providers do, it returns a result carrying the resolved identifier
    (the supplied one, or "ALT-" and the clock reading).  Its result map
    has a key exactly for each channel that was requested and passed the
    orchestrator's guard: "teams" with a webhook configured, "call" with a
    non-empty phone number and an account id configured, "voice" with a
    speech key configured.  Any other channel name is ignored. *)
Theorem send_alert_always_returns (cfg : Config) (w : World) (message : pystr)
    (channels : list pystr) (phone threat_id : option pystr) (st : State) :
  exists res st',
    send_alert cfg w message channels phone threat_id st = (Return res, st') /\
    AlertResult.threat_id res = resolved_id w threat_id "ALT-" st /\
    forall k,
      is_Some (AlertResult.channels res !! k) <->
      (k = "teams" /\ "teams" ∈ channels /\ TEAMS_WEBHOOK cfg <> "") \/
      (k = "call" /\ "call" ∈ channels /\ truthy_opt phone = true /\
       TWILIO_SID cfg <> "") \/
      (k = "voice" /\ "voice" ∈ channels /\ ELEVENLABS_KEY cfg <> "").
Proof. exact (send_alert_returns cfg w message channels phone threat_id st). Qed.

Lemma step_outcome_lookup {A} (w : World) (guard : bool) (m : M A)
    (wrap : A -> ChannelEntry) (key : pystr)
    (results results' : gmap pystr ChannelEntry) (st st' : State) :
  step_outcome w guard m wrap key results st results' st' ->
  forall k entry,
    results' !! k = Some entry ->
    results !! k = Some entry \/
    (k = key /\ guard = true /\
     ((exists a, m st = (Return a, st') /\ entry = wrap a) \/
      (exists e, entry = ErrorEntry (str w e)))).
Proof.
  unfold step_outcome. intros H k entry Hk. destruct guard.
  - destruct (decide (k = key)) as [->|Hne].
    + right. split; [done|]. split; [done|].
      destruct H as [(a & Hm & ->) | (e & Hm & ->)];
        rewrite lookup_insert_eq in Hk; injection Hk as <-; eauto.
    + left. destruct H as [(a & Hm & ->) | (e & Hm & ->)];
        by rewrite lookup_insert_ne in Hk.
  - destruct H as [-> _]. by left.
Qed.

(** X11.  One identifier for the whole alert: every entry of the
    orchestrator's result map sits under its own channel's key, and every
    success entry carries the alert's identifier.  The "teams" entry is
    "sent" on channel "teams" with audio reported exactly when speech is
    configured; the "call" entry is "initiated" to the phone number given;
    the "voice" entry has the audio URL "/api/audio/" followed by the
    identifier and the duration estimate of the message. *)
Theorem send_alert_entries_share_id (cfg : Config) (w : World)
    (message : pystr) (channels : list pystr)
    (phone threat_id : option pystr) (st st' : State) (res : AlertResult.t) :
  send_alert cfg w message channels phone threat_id st = (Return res, st') ->
  forall k entry,
    AlertResult.channels res !! k = Some entry ->
    let id := AlertResult.threat_id res in
    match entry with
    | TeamsEntry r =>
        k = "teams" /\
        r = TeamsResult.mk "sent" id "teams" (truthy (ELEVENLABS_KEY cfg))
    | CallEntry r =>
        k = "call" /\ CallResult.status r = "initiated" /\
        Some (CallResult.to r) = phone /\ CallResult.threat_id r = id
    | VoiceEntry r =>
        k = "voice" /\
        r = VoiceResult.mk id ("/api/audio/" +:+ id)
              (Z.of_nat (len message) / 15)
    | ErrorEntry _ => k = "teams" \/ k = "call" \/ k = "voice"
    end.
Proof.
  intros Hrun k entry Hk.
  destruct (send_alert_steps cfg w message channels phone threat_id st)
    as (r1 & st1 & r2 & st2 & r3 & st3 & Hrun' & H1 & H2 & H3).
  rewrite Hrun in Hrun'. injection Hrun' as -> ->.
  cbn [AlertResult.channels AlertResult.threat_id] in *.
  set (id := resolved_id w threat_id "ALT-" st) in *.
  assert (Hid : truthy id = true) by by apply resolved_id_truthy.
  destruct (step_outcome_lookup _ _ _ _ _ _ _ _ _ H3 k entry Hk)
    as [Hk2 | (-> & Hg & [(a & Hm & ->) | (e & ->)])].
  2: { pose proof (generate_voice_cases cfg w
                     (VoiceRequest.make message (Some id)) st2) as Hout.
       rewrite Hm in Hout.
       cbn [VoiceRequest.make VoiceRequest.message VoiceRequest.threat_id]
         in Hout.
       rewrite resolved_id_supplied in Hout by done.
       by destruct Hout as (_ & _ & _ & -> & _). }
  2: by right; right.
  destruct (step_outcome_lookup _ _ _ _ _ _ _ _ _ H2 k entry Hk2)
    as [Hk1 | (-> & Hg & [(a & Hm & ->) | (e & ->)])].
  2: { destruct (make_call_returned cfg w _ st1 st2 a Hm)
         as (_ & _ & _ & Hstatus & Hto & Htid & _).
       cbn [CallRequest.to_number CallRequest.threat_id] in *.
       rewrite resolved_id_supplied in Htid by done.
       split; [done|]. split; [done|]. split; [|done].
       rewrite Hto. apply andb_true_iff in Hg as [Hg _].
       apply andb_true_iff in Hg as [_ Hg].
       by destruct phone. }
  2: by right; left.
  destruct (step_outcome_lookup _ _ _ _ _ _ _ _ _ H1 k entry Hk1)
    as [Hk0 | (-> & Hg & [(a & Hm & ->) | (e & ->)])].
  - by rewrite lookup_empty in Hk0.
  - destruct (send_teams_returned cfg w _ _ st1 a Hm) as (_ & -> & _).
    cbn [TeamsRequest.make TeamsRequest.threat_id TeamsRequest.include_audio
         andb].
    by rewrite resolved_id_supplied.
  - by left.
Qed.

Lemma send_alert_entries_share_id_witness :
  "voice" = "voice" /\
  VoiceResult.mk "ALT-7" "/api/audio/ALT-7" 0
  = VoiceResult.mk "ALT-7" ("/api/audio/" +:+ "ALT-7")
      (Z.of_nat (len "test") / 15).
Proof.
  apply (send_alert_entries_share_id cfg_all world_ok "test" ["voice"] None
           (Some "ALT-7") initial_state
           (snd (send_alert cfg_all world_ok "test" ["voice"] None
                   (Some "ALT-7") initial_state))
           (AlertResult.mk "ALT-7"
              {["voice" := VoiceEntry
                             (VoiceResult.mk "ALT-7" "/api/audio/ALT-7" 0)]})
           eq_refl "voice"
           (VoiceEntry (VoiceResult.mk "ALT-7" "/api/audio/ALT-7" 0))).
  reflexivity.
Defined.

(** ** What no handler does *)

Lemma extends_tick (st : State) : extends st (tick st).
Proof. unfold extends. cbn. split; [done|]. split; [done|lia]. Qed.

Lemma extends_sent (rq : Request) (st : State) : extends st (record_sent rq st).
Proof.
  unfold extends. cbn. split; [done|]. split; [by apply prefix_app_r|lia].
Qed.

Lemma extends_write (id : pystr) (data : bytes) (st : State) :
  extends st (write_cache id data st).
Proof.
  unfold extends. cbn. split; [|split; [done|lia]].
  rewrite dom_insert_L. set_solver.
Qed.

Lemma same_except_tick (id : pystr) (st : State) : same_except id st (tick st).
Proof. by intros id' _. Qed.

Lemma same_except_sent (id : pystr) (rq : Request) (st : State) :
  same_except id st (record_sent rq st).
Proof. by intros id' _. Qed.

Lemma same_except_write (id : pystr) (data : bytes) (st : State) :
  same_except id st (write_cache id data st).
Proof. intros id' Hne. cbn. by apply lookup_insert_ne. Qed.

(** The handlers only extend the state. *)
Lemma handlers_extend (cfg : Config) (w : World) (st : State) :
  (forall req, extends st (snd (generate_voice cfg w req st))) /\
  (forall id, extends st (snd (get_audio id st))) /\
  (forall req, extends st (snd (make_call cfg w req st))) /\
  (forall req, extends st (snd (send_teams cfg w req st))) /\
  (forall message channels phone threat_id,
     extends st (snd (send_alert cfg w message channels phone threat_id st))).
Proof.
  split; [|split; [|split; [|split]]]; intros.
  - apply (generate_voice_keeps cfg w (R := extends));
      auto using extends_tick, extends_sent, extends_write.
  - unfold get_audio, bind, cache_get, audio_response.
    destruct (audio_cache st !! id); [|reflexivity].
    destruct (latin1_encodable _); reflexivity.
  - apply (make_call_keeps cfg w (R := extends));
      auto using extends_tick, extends_sent, extends_write.
  - apply (send_teams_keeps cfg w (R := extends));
      auto using extends_tick, extends_sent, extends_write.
  - apply (send_alert_keeps cfg w (R := extends));
      auto using extends_tick, extends_sent, extends_write.
Qed.

(** X12.  No handler ever removes a key from the audio cache, takes back a
    request already sent, or turns the clock back: on every path, returning
    or raising, the state left by the generate, retrieval, call, chat and
    alert endpoints extends the state they started in. *)
Theorem handlers_never_evict (cfg : Config) (w : World) (st : State) :
  (forall req, extends st (snd (generate_voice cfg w req st))) /\
  (forall id, extends st (snd (get_audio id st))) /\
  (forall req, extends st (snd (make_call cfg w req st))) /\
  (forall req, extends st (snd (send_teams cfg w req st))) /\
  (forall message channels phone threat_id,
     extends st (snd (send_alert cfg w message channels phone threat_id st))).
Proof. exact (handlers_extend cfg w st). Qed.

(** The handlers leave every cache key but their own alone. *)
Lemma handlers_frame (cfg : Config) (w : World) (st : State) :
  (forall req,
     same_except (resolved_id w (VoiceRequest.threat_id req) "VOC-" st)
       st (snd (generate_voice cfg w req st))) /\
  (forall req,
     same_except (resolved_id w (CallRequest.threat_id req) "VOC-" st)
       st (snd (make_call cfg w req st))) /\
  (forall req,
     same_except (resolved_id w (TeamsRequest.threat_id req) "TMS-" st)
       st (snd (send_teams cfg w req st))) /\
  (forall message channels phone threat_id,
     same_except (resolved_id w threat_id "ALT-" st)
       st (snd (send_alert cfg w message channels phone threat_id st))) /\
  (forall id, snd (get_audio id st) = st).
Proof.
  split; [|split; [|split; [|split]]]; intros.
  - apply (generate_voice_keeps cfg w (R := same_except _));
      auto using same_except_tick, same_except_sent, same_except_write.
  - apply (make_call_keeps cfg w (R := same_except _));
      auto using same_except_tick, same_except_sent, same_except_write.
  - apply (send_teams_keeps cfg w (R := same_except _));
      auto using same_except_tick, same_except_sent, same_except_write.
  - apply (send_alert_keeps cfg w (R := same_except _));
      auto using same_except_tick, same_except_sent, same_except_write.
  - unfold get_audio, bind, cache_get, audio_response.
    destruct (audio_cache st !! id); [|reflexivity].
    destruct (latin1_encodable _); reflexivity.
Qed.

(** X13.  Each handler writes the cache under one identifier only, the one
    it resolves from its request: on every path, every other key of the
    cache holds after the generate, call, chat and alert endpoints what it
    held before.  The retrieval endpoint changes nothing at all. *)
Theorem handlers_write_one_key (cfg : Config) (w : World) (st : State) :
  (forall req,
     same_except (resolved_id w (VoiceRequest.threat_id req) "VOC-" st)
       st (snd (generate_voice cfg w req st))) /\
  (forall req,
     same_except (resolved_id w (CallRequest.threat_id req) "VOC-" st)
       st (snd (make_call cfg w req st))) /\
  (forall req,
     same_except (resolved_id w (TeamsRequest.threat_id req) "TMS-" st)
       st (snd (send_teams cfg w req st))) /\
  (forall message channels phone threat_id,
     same_except (resolved_id w threat_id "ALT-" st)
       st (snd (send_alert cfg w message channels phone threat_id st))) /\
  (forall id, snd (get_audio id st) = st).
Proof. exact (handlers_frame cfg w st). Qed.

(** X14.  One alert adds at most one entry to the audio cache, however many
    channels it reaches: the number of cached entries after the alert
    endpoint is the number before, or one more. *)
Theorem send_alert_adds_at_most_one_entry (cfg : Config) (w : World)
    (message : pystr) (channels : list pystr)
    (phone threat_id : option pystr) (st : State) :
  let st' := snd (send_alert cfg w message channels phone threat_id st) in
  (size (audio_cache st) <= size (audio_cache st') <= S (size (audio_cache st)))%nat.
Proof.
  intros st'.
  destruct (handlers_extend cfg w st) as (_ & _ & _ & _ & Hext).
  destruct (handlers_frame cfg w st) as (_ & _ & _ & Hframe & _).
  destruct (Hext message channels phone threat_id) as (Hdom & _).
  specialize (Hframe message channels phone threat_id).
  fold st' in Hdom, Hframe.
  set (id := resolved_id w threat_id "ALT-" st) in *.
  rewrite <- !size_dom. split; [by apply subseteq_size|].
  assert (Hsub : dom (audio_cache st') ⊆ {[id]} ∪ dom (audio_cache st)).
  { intros k Hk. destruct (decide (k = id)) as [->|Hne]; [set_solver|].
    apply elem_of_union_r. apply elem_of_dom. apply elem_of_dom in Hk.
    by rewrite <- (Hframe k Hne). }
  apply subseteq_size in Hsub. rewrite size_union_alt, size_singleton in Hsub.
  pose proof (subseteq_size (dom (audio_cache st) ∖ {[id]})
                (dom (audio_cache st)) ltac:(apply subseteq_difference_l; done)).
  lia.
Qed.

(** ** Empty optional fields *)

(** X15.  An empty string in an optional field counts as absent.  An empty
    [threat_id] makes the generate, call, chat and alert endpoints generate
    an identifier exactly as a missing one does, and an empty [phone] makes
    the alert endpoint skip the call channel exactly as a missing one
    does. *)
Theorem empty_optional_fields_count_as_absent (cfg : Config) (w : World)
    (st : State) :
  (forall message language,
     generate_voice cfg w (VoiceRequest.mk message language (Some "")) st
     = generate_voice cfg w (VoiceRequest.mk message language None) st) /\
  (forall to_number message,
     make_call cfg w (CallRequest.mk to_number message (Some "")) st
     = make_call cfg w (CallRequest.mk to_number message None) st) /\
  (forall message include_audio,
     send_teams cfg w (TeamsRequest.mk message (Some "") include_audio) st
     = send_teams cfg w (TeamsRequest.mk message None include_audio) st) /\
  (forall message channels phone,
     send_alert cfg w message channels phone (Some "") st
     = send_alert cfg w message channels phone None st) /\
  (forall message channels threat_id,
     send_alert cfg w message channels (Some "") threat_id st
     = send_alert cfg w message channels None threat_id st /\
     exists res st',
       send_alert cfg w message channels (Some "") threat_id st
       = (Return res, st') /\
       AlertResult.channels res !! "call" = None).
Proof.
  split; [|split; [|split; [|split]]]; intros; try reflexivity.
  assert (Heq : send_alert cfg w message channels (Some "") threat_id st
                = send_alert cfg w message channels None threat_id st).
  { unfold send_alert. cbn [truthy_opt truthy].
    by rewrite !andb_false_r. }
  split; [exact Heq|].
  destruct (send_alert_returns cfg w message channels (Some "")
              threat_id st) as (res & st' & Hrun & _ & Hkeys).
  exists res, st'. split; [exact Hrun|].
  apply eq_None_not_Some. rewrite Hkeys.
  intros [(? & _) | [(_ & _ & ? & _) | (? & _)]]; discriminate.
Qed.

(** ** Upstream traffic of a full alert *)



(** ** Independence of the channels *)

Lemma step_outcome_extends {A} (w : World) (guard : bool) (m : M A)
    (wrap : A -> ChannelEntry) (key : pystr)
    (results results' : gmap pystr ChannelEntry) (st st' : State) :
  step_outcome w guard m wrap key results st results' st' ->
  extends st (snd (m st)) ->
  extends st st'.
Proof.
  unfold step_outcome. intros H Hext. destruct guard.
  - destruct H as [(a & Hm & _) | (e & Hm & _)]; by rewrite Hm in Hext.
  - destruct H as [_ ->]. reflexivity.
Qed.

(** X18.  No all-or-nothing: whatever happens on the chat and call channels
    (skipped, succeeded, or failed in any way), when "voice" is requested,
    speech is configured and the speech provider accepts, the result map
    has the voice success entry under the alert's identifier.  The last
    request the alert endpoint sends is the voice channel's synthesis
    request, and the audio the provider answered to that request is what
    the cache holds under the alert's identifier when the endpoint returns,
    and what the retrieval endpoint then returns for it, provided the
    identifier encodes as latin-1 ([UnicodeEncodeError] otherwise). *)
Theorem send_alert_voice_independent (cfg : Config) (w : World)
    (message : pystr) (channels : list pystr)
    (phone threat_id : option pystr) (st : State) :
  "voice" ∈ channels ->
  spec_speech_enabled cfg ->
  speech_succeeds w ->
  let id := resolved_id w threat_id "ALT-" st in
  let speech := speech_request cfg message in
  exists res st' history audio,
    send_alert cfg w message channels phone threat_id st = (Return res, st') /\
    AlertResult.channels res !! "voice"
    = Some (VoiceEntry
              (VoiceResult.mk id ("/api/audio/" +:+ id)
                 (Z.of_nat (len message) / 15))) /\
    sent st `prefix_of` history /\
    sent st' = (history ++ [speech])%list /\
    upstream w history speech = Return audio /\
    status_code audio = 200 /\
    audio_cache st' !! id = Some (content audio) /\
    get_audio id st'
    = (if latin1_encodable id
       then Return (AudioResponse.mk (content audio) "audio/mpeg"
                      ("inline; filename=" +:+ id +:+ ".mp3"))
       else Raise (RuntimeFailure "UnicodeEncodeError"
                     ("inline; filename=" +:+ id +:+ ".mp3")), st').
Proof.
  intros Hvoice Hkey Hs id speech.
  apply py_in_true in Hvoice.
  pose proof Hkey as Hkey'. apply truthy_true in Hkey'.
  destruct (send_alert_steps cfg w message channels phone threat_id st)
    as (r1 & st1 & r2 & st2 & r3 & st3 & Hrun & H1 & H2 & H3).
  fold id in Hrun, H1, H2, H3.
  assert (Hid : truthy id = true) by by apply resolved_id_truthy.
  assert (Hprefix : sent st `prefix_of` sent st2).
  { destruct (handlers_extend cfg w
                (if truthy_opt threat_id then st else tick st))
      as (_ & _ & _ & Hteams & _).
    destruct (handlers_extend cfg w st1) as (_ & _ & Hcall & _).
    pose proof (step_outcome_extends _ _ _ _ _ _ _ _ _ H1 (Hteams _))
      as (_ & Hp1 & _).
    pose proof (step_outcome_extends _ _ _ _ _ _ _ _ _ H2 (Hcall _))
      as (_ & Hp2 & _).
    rewrite sent_after_resolve in Hp1. by etransitivity. }
  unfold step_outcome in H3. rewrite Hvoice, Hkey' in H3. cbn [andb] in H3.
  destruct (Hs (sent st2) (ELEVENLABS_VOICE cfg) (ELEVENLABS_KEY cfg) message)
    as (audio & Hup & Hst).
  rewrite (generate_voice_ok cfg w _ st2 st2 id audio) in H3;
    [|done|by apply resolve_supplied, truthy_true|done|done].
  destruct H3 as [(a & [= <- <-] & ->) | (e & [=] & _)].
  exists (AlertResult.mk id
            (<["voice" := VoiceEntry
                            (VoiceResult.mk id ("/api/audio/" +:+ id)
                               (Z.of_nat (len message) / 15))]> r2)).
  eexists. exists (sent st2), audio. split; [exact Hrun|].
  cbn [AlertResult.channels]. split; [apply lookup_insert_eq|].
  split; [exact Hprefix|]. split; [reflexivity|].
  split; [exact Hup|]. split; [exact Hst|].
  assert (Hcache : audio_cache
                     (write_cache id (content audio)
                        (record_sent
                           (speech_request cfg
                              (VoiceRequest.message
                                 (VoiceRequest.make message (Some id)))) st2))
                   !! id = Some (content audio)) by apply lookup_insert_eq.
  split; [exact Hcache|].
  destruct (latin1_encodable id) eqn:E.
  - by apply (get_audio_hit id (content audio)).
  - by apply (get_audio_unencodable id (content audio)).
Qed.

Lemma send_alert_voice_independent_witness :
  let id := resolved_id world_speech_only None "ALT-" initial_state in
  let speech := speech_request cfg_all "test" in
  exists res st' history audio,
    send_alert cfg_all world_speech_only "test" ["teams"; "call"; "voice"]
      (Some "+4930123456") None initial_state = (Return res, st') /\
    AlertResult.channels res !! "voice"
    = Some (VoiceEntry
              (VoiceResult.mk id ("/api/audio/" +:+ id)
                 (Z.of_nat (len "test") / 15))) /\
    sent initial_state `prefix_of` history /\
    sent st' = (history ++ [speech])%list /\
    upstream world_speech_only history speech = Return audio /\
    status_code audio = 200 /\
    audio_cache st' !! id = Some (content audio) /\
    get_audio id st'
    = (if latin1_encodable id
       then Return (AudioResponse.mk (content audio) "audio/mpeg"
                      ("inline; filename=" +:+ id +:+ ".mp3"))
       else Raise (RuntimeFailure "UnicodeEncodeError"
                     ("inline; filename=" +:+ id +:+ ".mp3")), st').
Proof.
  apply (send_alert_voice_independent cfg_all world_speech_only "test"
           ["teams"; "call"; "voice"] (Some "+4930123456") None initial_state).
  - repeat constructor.
  - discriminate.
  - intros h v k t. exists ok_response. by split.
Defined.

(** ** Chat and call in one alert *)

Lemma step_outcome_other {A} (w : World) (guard : bool) (m : M A)
    (wrap : A -> ChannelEntry) (key : pystr)
    (results results' : gmap pystr ChannelEntry) (st st' : State) :
  step_outcome w guard m wrap key results st results' st' ->
  forall k, k <> key -> results' !! k = results !! k.
Proof.
  unfold step_outcome. intros H k Hne. destruct guard.
  - destruct H as [(a & _ & ->) | (e & _ & ->)]; by apply lookup_insert_ne.
  - by destruct H as [-> _].
Qed.

(** C1 (amended).  Dispatching to channels containing "teams" and "call",
    with a non-empty phone number, chat enabled and telephony disabled, the
    orchestrator returns a result under the resolved identifier, and:
    - the result map always has an entry under "teams": the chat client's
      result when the chat client returns, and the error entry made of
      [str(e)] when it raises [e].  In particular it is the "sent" success
      entry when the speech and chat providers accept, and the error entry
      of the "Teams error" failure when the webhook answers the card with a
      status other than 200 and 201;
    - under "call" there is the error entry of the 503 "Twilio not
      configured" failure when the account id is set (auth token or sender
      number missing), and no entry at all when the account id is empty:
      the orchestrator then skips the channel. *)
Theorem send_alert_teams_and_call (cfg : Config) (w : World)
    (message : pystr) (channels : list pystr)
    (phone threat_id : option pystr) (st : State) :
  "teams" ∈ channels ->
  "call" ∈ channels ->
  truthy_opt phone = true ->
  spec_chat_enabled cfg ->
  ~ spec_telephony_enabled cfg ->
  let id := resolved_id w threat_id "ALT-" st in
  let st0 := if truthy_opt threat_id then st else tick st in
  let chat := send_teams cfg w (TeamsRequest.make message (Some id)) st0 in
  let speech := speech_request cfg message in
  let synth := truthy (ELEVENLABS_KEY cfg) in
  let card :=
    {| activitySubtitle := "Threat ID: " +:+ id;
       fact_Time := strftime_now w (clock_reads st0) "%Y-%m-%d %H:%M:%S UTC";
       card_text := message |} in
  exists res st',
    send_alert cfg w message channels phone threat_id st = (Return res, st') /\
    AlertResult.threat_id res = id /\
    is_Some (AlertResult.channels res !! "teams") /\
    AlertResult.channels res !! "teams"
    = Some (match fst chat with
            | Return r => TeamsEntry r
            | Raise e => ErrorEntry (str w e)
            end) /\
    (speech_succeeds w -> chat_succeeds w ->
     AlertResult.channels res !! "teams"
     = Some (TeamsEntry (TeamsResult.mk "sent" (AlertResult.threat_id res)
                           "teams" (truthy (ELEVENLABS_KEY cfg))))) /\
    (forall audio reply,
       (synth = true ->
        upstream w (sent st) speech = Return audio /\ status_code audio = 200) ->
       upstream w (sent st ++ (if synth then [speech] else []))%list
         (TeamsPost (TEAMS_WEBHOOK cfg) card) = Return reply ->
       status_code reply <> 200 ->
       status_code reply <> 201 ->
       AlertResult.channels res !! "teams"
       = Some (ErrorEntry
                 (str w (HTTPException (status_code reply)
                           ("Teams error: " +:+ text reply))))) /\
    (TWILIO_SID cfg <> "" ->
     AlertResult.channels res !! "call"
     = Some (ErrorEntry (str w (HTTPException 503 "Twilio not configured")))) /\
    (TWILIO_SID cfg = "" -> AlertResult.channels res !! "call" = None).
Proof.
  intros Hteams Hcall Hphone Hchat Htel id st0 chat speech synth card.
  apply py_in_true in Hteams, Hcall.
  pose proof Hchat as Hhook. apply truthy_true in Hhook.
  destruct (send_alert_steps cfg w message channels phone threat_id st)
    as (r1 & st1 & r2 & st2 & r3 & st3 & Hrun & H1 & H2 & H3).
  fold id st0 in Hrun, H1, H2, H3.
  assert (Hid : truthy id = true) by by apply resolved_id_truthy.
  exists (AlertResult.mk id r3), st3. split; [exact Hrun|].
  split; [reflexivity|]. cbn [AlertResult.channels AlertResult.threat_id].
  rewrite (step_outcome_other _ _ _ _ _ _ _ _ _ H3 "teams") by discriminate.
  rewrite (step_outcome_other _ _ _ _ _ _ _ _ _ H2 "teams") by discriminate.
  rewrite (step_outcome_other _ _ _ _ _ _ _ _ _ H3 "call") by discriminate.
  (* the teams entry *)
  unfold step_outcome in H1. rewrite Hteams, Hhook in H1. cbn [andb] in H1.
  fold chat in H1.
  assert (Hentry : r1 !! "teams"
                   = Some (match fst chat with
                           | Return r => TeamsEntry r
                           | Raise e => ErrorEntry (str w e)
                           end) /\ r1 !! "call" = None).
  { destruct H1 as [(a & Hm & ->) | (e & Hm & ->)]; rewrite Hm; cbn [fst];
      by rewrite lookup_insert_eq, lookup_insert_ne. }
  destruct Hentry as [Hentry Hnocall]. rewrite Hentry.
  split; [eauto|]. split; [reflexivity|]. split.
  { intros Hs Hc.
    destruct (send_teams_ok cfg w message id st0 Hchat
                ltac:(by apply truthy_true) Hs Hc) as (st'' & Hok).
    fold chat in Hok. by rewrite Hok. }
  split.
  { intros audio reply Hsynth Hreply H200 H201.
    pose proof (send_teams_rejected cfg w
                  (TeamsRequest.make message (Some id)) st0 audio reply)
      as Hrej.
    cbn [TeamsRequest.make TeamsRequest.threat_id TeamsRequest.include_audio
         TeamsRequest.message truthy_opt andb] in Hrej.
    rewrite resolved_id_supplied, Hid in Hrej by done.
    assert (Hs0 : sent st0 = sent st) by apply sent_after_resolve.
    rewrite !Hs0 in Hrej. fold speech synth card chat in Hrej.
    destruct (Hrej Hchat Hsynth Hreply H200 H201) as (st'' & Hm & _).
    by rewrite Hm. }
  (* the call entry *)
  unfold step_outcome in H2. rewrite Hcall, Hphone in H2. cbn [andb] in H2.
  destruct (truthy (TWILIO_SID cfg)) eqn:Esid.
  - apply truthy_true in Esid.
    rewrite make_call_not_configured in H2 by done.
    destruct H2 as [(a & [=] & _) | (e & [= <- _] & ->)].
    rewrite lookup_insert_eq. by split.
  - apply truthy_false in Esid. destruct H2 as [-> _].
    rewrite Hnocall. by split.
Qed.

Lemma send_alert_teams_and_call_witness :
  let cfg := cfg_chat_sid_only in
  let w := world_ok in
  let message := "test" in
  let st := initial_state in
  let id := resolved_id w None "ALT-" st in
  let st0 := tick st in
  let chat := send_teams cfg w (TeamsRequest.make message (Some id)) st0 in
  let speech := speech_request cfg message in
  let synth := truthy (ELEVENLABS_KEY cfg) in
  let card :=
    {| activitySubtitle := "Threat ID: " +:+ id;
       fact_Time := strftime_now w (clock_reads st0) "%Y-%m-%d %H:%M:%S UTC";
       card_text := message |} in
  exists res st',
    send_alert cfg w message ["teams"; "call"] (Some "+4930123456") None st
    = (Return res, st') /\
    AlertResult.threat_id res = id /\
    is_Some (AlertResult.channels res !! "teams") /\
    AlertResult.channels res !! "teams"
    = Some (match fst chat with
            | Return r => TeamsEntry r
            | Raise e => ErrorEntry (str w e)
            end) /\
    (speech_succeeds w -> chat_succeeds w ->
     AlertResult.channels res !! "teams"
     = Some (TeamsEntry (TeamsResult.mk "sent" (AlertResult.threat_id res)
                           "teams" (truthy (ELEVENLABS_KEY cfg))))) /\
    (forall audio reply,
       (synth = true ->
        upstream w (sent st) speech = Return audio /\ status_code audio = 200) ->
       upstream w (sent st ++ (if synth then [speech] else []))%list
         (TeamsPost (TEAMS_WEBHOOK cfg) card) = Return reply ->
       status_code reply <> 200 ->
       status_code reply <> 201 ->
       AlertResult.channels res !! "teams"
       = Some (ErrorEntry
                 (str w (HTTPException (status_code reply)
                           ("Teams error: " +:+ text reply))))) /\
    (TWILIO_SID cfg <> "" ->
     AlertResult.channels res !! "call"
     = Some (ErrorEntry (str w (HTTPException 503 "Twilio not configured")))) /\
    (TWILIO_SID cfg = "" -> AlertResult.channels res !! "call" = None).
Proof.
  intros cfg w message st.
  apply (send_alert_teams_and_call cfg w message ["teams"; "call"]
           (Some "+4930123456") None st).
  - repeat constructor.
  - repeat constructor.
  - reflexivity.
  - discriminate.
  - unfold spec_telephony_enabled; simpl. tauto.
Defined.

(** C1 as stated fails, in both halves.  Chat is enabled, telephony is
    disabled (every telephony value is empty), channels are "teams" and
    "call" and a phone number is supplied.  With every provider accepting,
    the result map has the "teams" success entry and no "call" key at all.
    With the chat webhook answering 429, the entry under "teams" is an
    error entry, not a success entry (and the "call" key is absent
    again). *)
Lemma send_alert_omits_call_without_account_id :
  spec_chat_enabled cfg_chat_only /\
  ~ spec_telephony_enabled cfg_chat_only /\
  (exists res st',
     send_alert cfg_chat_only world_ok "test" ["teams"; "call"]
       (Some "+4930123456") None initial_state = (Return res, st') /\
     AlertResult.channels res !! "teams"
     = Some (TeamsEntry
               (TeamsResult.mk "sent" "ALT-20240101120000" "teams" false)) /\
     AlertResult.channels res !! "call" = None /\
     ~ (exists err, AlertResult.channels res !! "call" = Some (ErrorEntry err))) /\
  (exists res st',
     send_alert cfg_chat_only world_speech_only "test" ["teams"; "call"]
       (Some "+4930123456") None initial_state = (Return res, st') /\
     AlertResult.channels res !! "teams"
     = Some (ErrorEntry "Teams error: busy") /\
     ~ (exists r, AlertResult.channels res !! "teams" = Some (TeamsEntry r)) /\
     AlertResult.channels res !! "call" = None).
Proof.
  split; [discriminate|].
  split; [unfold spec_telephony_enabled; simpl; tauto|].
  split.
  - eexists _, _. split; [vm_compute; reflexivity|].
    split; [reflexivity|]. split; [reflexivity|].
    intros (err & Herr). vm_compute in Herr. discriminate Herr.
  - eexists _, _. split; [vm_compute; reflexivity|].
    split; [reflexivity|]. split; [|reflexivity].
    intros (r & Hr). vm_compute in Hr. discriminate Hr.
Qed.
